(** * emotionmap: the sampler, the cue emitter and the renderer of script.js

    A shallow embedding of [script.js].  The page keeps a growing list of
    emotion snapshots, beeps for the dominant emotion of each new snapshot
    and redraws the whole list as a heat map.

    Modelling choices.
    - In the model of the whole page the JavaScript numbers that carry
      intensities, frequencies and colour components are exact rationals
      ([Q]), and pixel sizes are integers ([Z]).  What is stated about
      that model is stated so that the rounding of IEEE-754 doubles does
      not matter to it: orders, memberships, equations between the very
      operations the script performs, and bounds that leave room for
      rounding.
    - The arithmetic of a cue is also modelled as the script computes it,
      in binary64, in the module [Binary64]; what depends on the value of
      a frequency or an amplitude is stated there.
    - A JavaScript object used as a table is a [gmap string Q] of its own
      properties; a read [o[k]] for an arbitrary string [k] goes through
      [get], which also sees the members every object literal inherits
      from [Object.prototype].
    - The global variables of the script and the parts of the browser, of
      p5 and of p5.sound that the script reads or drives are the fields of
      one record, [State]; every callback is a function on it.
    - face-api, the camera and the user are the environment: what they do
      is the payload of an [Event]. *)

From Stdlib Require Import QArith ZArith Lia Lqa.
From Stdlib Require PrimFloat FloatOps SpecFloat.
From stdpp Require Import gmap strings list fin_maps.

Local Open Scope Q_scope.

(** ** JavaScript values *)

(** A number is finite here or it is [NaN]. *)
Inductive Number :=
| Fin (q : Q)
| NaN.

(** What a property read can give back in this script: a number, the value
    [undefined], or some object or function (the inherited members of
    [Object.prototype]). *)
Inductive Value :=
| VNumber (n : Number)
| VUndefined
| VObject.

(** Truthiness, as [||] and [&&] test it. *)
Definition truthy (v : Value) : bool :=
  match v with
  | VNumber (Fin q) => negb (Qeq_bool q 0)
  | VNumber NaN => false
  | VUndefined => false
  | VObject => true
  end.

(** [a || b] *)
Definition or_else (a b : Value) : Value :=
  if truthy a then a else b.

(** ToNumber: [undefined] becomes [NaN]; a function or a plain object
    converts through its string form, which is no numeral, to [NaN]. *)
Definition to_number (v : Value) : Number :=
  match v with
  | VNumber n => n
  | VUndefined => NaN
  | VObject => NaN
  end.

(** [a * b] *)
Definition mul (a b : Number) : Number :=
  match a, b with
  | Fin x, Fin y => Fin (x * y)
  | _, _ => NaN
  end.

(** [a > b] on finite numbers. *)
Definition Qgtb (a b : Q) : bool :=
  match a ?= b with
  | Gt => true
  | _ => false
  end.

(** The property names every object literal inherits from
    [Object.prototype]. *)
Definition Object_prototype : list string :=
  [ "constructor"; "__proto__"; "hasOwnProperty"; "isPrototypeOf";
    "propertyIsEnumerable"; "toLocaleString"; "toString"; "valueOf";
    "__defineGetter__"; "__defineSetter__"; "__lookupGetter__";
    "__lookupSetter__" ]%string.

(** [o[k]] for an object literal [o] whose own properties are numbers: an
    own property first, then the prototype, else [undefined]. *)
Definition get (o : gmap string Q) (k : string) : Value :=
  match o !! k with
  | Some q => VNumber (Fin q)
  | None => if bool_decide (k ∈ Object_prototype) then VObject else VUndefined
  end.

(** [o[k] || 0] for a key [k] that [Object.prototype] does not define (every
    emotion label is such a key, see [label_read]): a missing property and
    a zero both give [0]. *)
Definition get_or_zero (o : gmap string Q) (k : string) : Q :=
  match o !! k with
  | Some q => if Qeq_bool q 0 then 0 else q
  | None => 0
  end.

(** ** Constants of the script *)

Definition EMOTIONS : list string :=
  [ "neutral"; "happy"; "sad"; "angry"; "fearful"; "disgusted";
    "surprised" ]%string.

Definition SAMPLE_INTERVAL : Z := 200.

Definition COL_WIDTH : Z := 6.

Definition EMOTION_FREQS : gmap string Q :=
  list_to_map
    [ ("neutral", 220); ("happy", 880); ("sad", 260); ("angry", 440);
      ("fearful", 600); ("disgusted", 320); ("surprised", 700) ]%string.

(** ** The state of the page *)

(** One [p5.Oscillator] as [triggerBeepForEmotion] sets it up: wave form,
    frequency, the amplitude the envelope rises to, and the times (in
    seconds) of the envelope. *)
Record Oscillator := mkOscillator {
  osc_type : string;
  osc_freq : Number;
  osc_amp : Q;
  osc_attack : Q;
  osc_release : Q;
  osc_release_delay : Q;
  osc_stop : Q
}.

Record State := mkState {
  emotionHistory : list (gmap string Q);
  audioInitialized : bool;
  canvasHeight : Z;
  (* p5: the size of the canvas *)
  width : Z;
  height : Z;
  (* window.innerWidth, window.innerHeight, and the scroll position *)
  innerWidth : Z;
  innerHeight : Z;
  scrollX : Z;
  (* p5.sound: every oscillator started so far, oldest first *)
  oscillators : list Oscillator;
  (* console.log, oldest first *)
  console : list string
}.

Definition set_audioInitialized (b : bool) (st : State) : State :=
  mkState (emotionHistory st) b (canvasHeight st) (width st) (height st)
    (innerWidth st) (innerHeight st) (scrollX st) (oscillators st)
    (console st).

Definition console_log (msg : string) (st : State) : State :=
  mkState (emotionHistory st) (audioInitialized st) (canvasHeight st)
    (width st) (height st) (innerWidth st) (innerHeight st) (scrollX st)
    (oscillators st) (console st ++ [msg]).

Definition push (snapshot : gmap string Q) (st : State) : State :=
  mkState (emotionHistory st ++ [snapshot]) (audioInitialized st)
    (canvasHeight st) (width st) (height st) (innerWidth st)
    (innerHeight st) (scrollX st) (oscillators st) (console st).

Definition start_oscillator (osc : Oscillator) (st : State) : State :=
  mkState (emotionHistory st) (audioInitialized st) (canvasHeight st)
    (width st) (height st) (innerWidth st) (innerHeight st) (scrollX st)
    (oscillators st ++ [osc]) (console st).

Definition set_canvasHeight (h : Z) (st : State) : State :=
  mkState (emotionHistory st) (audioInitialized st) h (width st)
    (height st) (innerWidth st) (innerHeight st) (scrollX st)
    (oscillators st) (console st).

(** p5's [resizeCanvas(w, h)]. *)
Definition resizeCanvas (w h : Z) (st : State) : State :=
  mkState (emotionHistory st) (audioInitialized st) (canvasHeight st) w h
    (innerWidth st) (innerHeight st) (scrollX st) (oscillators st)
    (console st).

(** [window.scrollTo(x, 0)] *)
Definition scrollTo (x : Z) (st : State) : State :=
  mkState (emotionHistory st) (audioInitialized st) (canvasHeight st)
    (width st) (height st) (innerWidth st) (innerHeight st) x
    (oscillators st) (console st).

(** The browser changes the size of the viewport. *)
Definition set_viewport (w h : Z) (st : State) : State :=
  mkState (emotionHistory st) (audioInitialized st) (canvasHeight st)
    (width st) (height st) w h (scrollX st) (oscillators st) (console st).

(** ** Sound *)

(** [mousePressed]: the first click unlocks audio.  [unlockThrows] says
    whether p5.sound's unlock calls throw; the script logs that and goes
    on. *)
Definition mousePressed (unlockThrows : bool) (st : State) : State :=
  if audioInitialized st then st
  else
    let st := set_audioInitialized true st in
    let st := if unlockThrows then console_log "Audio init error:" st
              else st in
    console_log "Audio initialized" st.

Definition triggerBeepForEmotion (name : string) (intensity : Q)
    (st : State) : State :=
  if negb (audioInitialized st) then st
  else
    let baseFreq := or_else (get EMOTION_FREQS name) (VNumber (Fin 440)) in
    let freq := mul (to_number baseFreq) (Fin (0.8 + intensity * 0.4)) in
    let amp := 0.05 + intensity * 0.25 in
    start_oscillator (mkOscillator "sine" freq amp 0.01 0.15 0.05 0.25) st.

(** ** The sampler *)

(** What one call of face-api gives: the awaited promise rejects, or it
    resolves to [undefined] (no face), or to a detection whose
    [expressions] may be missing. *)
Inductive Detection :=
| Rejected
| NoFace
| Face (expressions : option (gmap string Q)).

(** [EMOTIONS.forEach(name => { snapshot[name] = f(name) })] *)
Definition forEach_assign (f : string -> Q) (snapshot : gmap string Q)
    : gmap string Q :=
  foldl (fun snap name => <[name := f name]> snap) snapshot EMOTIONS.

(** The [try]/[catch] block of the interval callback, from
    [let snapshot = {}] on.  The handler assigns all seven labels again,
    so it does not matter how far the [try] block got before it threw. *)
Definition takeSnapshot (d : Detection) : gmap string Q :=
  match d with
  | Face (Some expressions) => forEach_assign (get_or_zero expressions) ∅
  | Face None => forEach_assign (fun _ => 0) ∅
  | NoFace => forEach_assign (fun _ => 0) ∅
  | Rejected => forEach_assign (fun _ => 0) ∅
  end.

(** One turn of the loop [for (const name of EMOTIONS)] over the pair
    [(bestName, bestVal)]. *)
Definition better (snapshot : gmap string Q) (best : option string * Q)
    (name : string) : option string * Q :=
  let v := get_or_zero snapshot name in
  if Qgtb v (snd best) then (Some name, v) else best.

(** The dominant emotion: [bestName] ([None] is [null]) and [bestVal]
    after the loop. *)
Definition dominant (snapshot : gmap string Q) : option string * Q :=
  foldl (better snapshot) (None, 0) EMOTIONS.

(** [if (bestName && bestVal > 0.2) triggerBeepForEmotion(...)] *)
Definition beepForDominant (snapshot : gmap string Q) (st : State) : State :=
  match dominant snapshot with
  | (Some bestName, bestVal) =>
      if negb (String.eqb bestName "") && Qgtb bestVal 0.2
      then triggerBeepForEmotion bestName bestVal st
      else st
  | (None, _) => st
  end.

(** [Math.max(window.innerWidth, emotionHistory.length * COL_WIDTH)], as a
    function of the viewport width and of the number of snapshots. *)
Definition requiredWidth (viewportWidth : Z) (n : nat) : Z :=
  Z.max viewportWidth (Z.of_nat n * COL_WIDTH).

Definition neededWidth (st : State) : Z :=
  requiredWidth (innerWidth st) (length (emotionHistory st)).

(** The resize check at the end of the callback.  p5 is loaded in every
    state of the sketch, so [typeof resizeCanvas === 'function'] holds. *)
Definition growCanvas (st : State) : State :=
  if negb (width st =? neededWidth st)%Z
  then resizeCanvas (neededWidth st) (canvasHeight st) st
  else st.

(** The interval callback: one sampling tick.  Everything after the
    [await] runs without interruption, so a tick is one step, taken when
    its detection [d] settles. *)
Definition sample (d : Detection) (st : State) : State :=
  let snapshot := takeSnapshot d in
  let st := push snapshot st in
  let st := beepForDominant snapshot st in
  growCanvas st.

(** ** The renderer *)

(** [setup], run by p5 on a fresh page whose viewport is [iw] by [ih]. *)
Definition setup (iw ih : Z) : State :=
  mkState [] false ih iw ih iw ih 0 [] [].

(** p5's [lerp]. *)
Definition lerp (start stop amt : Q) : Q :=
  amt * (stop - start) + start.

(** A colour in the HSB mode of [setup]: the three components handed to
    p5's [color]. *)
Record Color := color {
  hue : Q;
  saturation : Q;
  brightness : Q
}.

Definition getEmotionColor (name : string) (value : Q) : Color :=
  let b := lerp 10 100 value in
  if String.eqb name "neutral" then color 0 0 (lerp 30 80 value)
  else if String.eqb name "happy" then color 60 100 b
  else if String.eqb name "sad" then color 220 80 b
  else if String.eqb name "angry" then color 0 100 b
  else if String.eqb name "fearful" then color 280 80 b
  else if String.eqb name "disgusted" then color 130 80 b
  else if String.eqb name "surprised" then color 180 80 b
  else color 0 0 b.

(** What [draw] paints. *)
Inductive DrawCmd :=
| Background (grey : Q)
| Rect (fill : Color) (x y w h : Q)
| Line (x1 y1 x2 y2 : Q).

Definition rowHeight (st : State) : Q :=
  inject_Z (height st) / inject_Z (Z.of_nat (length EMOTIONS)).

(** The inner loop of [draw]: the cells of time step [t]. *)
Definition column (rowHeight : Q) (t : nat) (sample : gmap string Q)
    : list DrawCmd :=
  imap (fun e name =>
          Rect (getEmotionColor name (get_or_zero sample name))
               (inject_Z (Z.of_nat t * COL_WIDTH))
               (inject_Z (Z.of_nat e) * rowHeight)
               (inject_Z COL_WIDTH) rowHeight)
       EMOTIONS.

(** The separator lines between the rows. *)
Definition separators (rowHeight : Q) (width : Z) : list DrawCmd :=
  map (fun e => Line 0 (inject_Z (Z.of_nat e) * rowHeight)
                     (inject_Z width) (inject_Z (Z.of_nat e) * rowHeight))
      (seq 1 (length EMOTIONS - 1)).

(** [draw]: the frame it paints and the state it leaves. *)
Definition draw (st : State) : list DrawCmd * State :=
  if (length (emotionHistory st) =? 0)%nat then ([Background 0], st)
  else
    ( Background 0
        :: concat (imap (column (rowHeight st)) (emotionHistory st))
        ++ separators (rowHeight st) (width st),
      scrollTo (Z.max 0 (width st - innerWidth st)) st ).

Definition windowResized (st : State) : State :=
  let st := set_canvasHeight (innerHeight st) st in
  resizeCanvas (neededWidth st) (canvasHeight st) st.

(** ** The page as a transition system *)

Inductive Event :=
| MousePressed (unlockThrows : bool)
| Sample (d : Detection)
| Draw
| Viewport (w h : Z)
| WindowResized.

Definition step (st : State) (ev : Event) : State :=
  match ev with
  | MousePressed unlockThrows => mousePressed unlockThrows st
  | Sample d => sample d st
  | Draw => snd (draw st)
  | Viewport w h => set_viewport w h st
  | WindowResized => windowResized st
  end.

Definition run (evs : list Event) (st : State) : State :=
  foldl step st evs.

Definition is_tick (ev : Event) : bool :=
  match ev with
  | Sample _ => true
  | _ => false
  end.

(** The number of sampling ticks among the events. *)
Definition ticks (evs : list Event) : nat :=
  length (List.filter is_tick evs).

(** ** Predicates used in the statements *)

(** The value face-api reports for a label, if it reports one. *)
Definition reported (d : Detection) (name : string) : option Q :=
  match d with
  | Face (Some expressions) => expressions !! name
  | _ => None
  end.

Definition unit_intervalb (v : Q) : bool :=
  Qle_bool 0 v && Qle_bool v 1.

(** Every value face-api reports lies in [0, 1]. *)
Definition reports_unit (d : Detection) : Prop :=
  match d with
  | Face (Some expressions) =>
      map_Forall (fun _ v => unit_intervalb v = true) expressions
  | _ => True
  end.

Definition event_reports_unit (ev : Event) : Prop :=
  match ev with
  | Sample d => reports_unit d
  | _ => True
  end.

(** The detections of the sampling ticks, in order. *)
Fixpoint detections (evs : list Event) : list Detection :=
  match evs with
  | [] => []
  | Sample d :: evs => d :: detections evs
  | _ :: evs => detections evs
  end.

(** A detection that yields no expressions. *)
Definition detection_fails (d : Detection) : Prop :=
  match d with
  | Face (Some _) => False
  | _ => True
  end.

(** Some label of the snapshot is stronger than the threshold. *)
Definition exceeds_threshold (snapshot : gmap string Q) : Prop :=
  exists name v,
    name ∈ EMOTIONS /\ snapshot !! name = Some v /\ 0.2 < v.


(** [exceeds_threshold], computed. *)
Definition exceeds_thresholdb (snapshot : gmap string Q) : bool :=
  existsb (fun name => match snapshot !! name with
                       | Some v => Qgtb v 0.2
                       | None => false
                       end)
          EMOTIONS.

(** ** Sample data *)

(** The Sample with happy at 0.9 and every other label at 0. *)
Definition happy_sample : gmap string Q :=
  list_to_map
    [ ("neutral", 0); ("happy", 0.9); ("sad", 0); ("angry", 0);
      ("fearful", 0); ("disgusted", 0); ("surprised", 0) ]%string.

(** A Sample in which happy and sad tie at the maximum. *)
Definition tied_sample : gmap string Q :=
  list_to_map
    [ ("neutral", 0.1); ("happy", 0.5); ("sad", 0.5); ("angry", 0);
      ("fearful", 0.2); ("disgusted", 0); ("surprised", 0.3) ]%string.

(** What face-api may report: happy only, the other labels missing. *)
Definition happy_only : gmap string Q :=
  list_to_map [ ("happy", 0.9) ]%string.

(** A page 1000 by 700 on which the user has clicked once. *)
Definition unlocked_page : State :=
  mousePressed false (setup 1000 700).

(** A short session: a face, a click, then two failed detections. *)
Definition short_session : list Event :=
  [ Sample (Face (Some happy_only)); MousePressed false; Sample NoFace;
    Sample Rejected ].



(** A Sample whose strongest label, sad, is at 0.15. *)
Definition faint_sample : gmap string Q :=
  list_to_map
    [ ("neutral", 0.1); ("happy", 0.05); ("sad", 0.15); ("angry", 0);
      ("fearful", 0); ("disgusted", 0.02); ("surprised", 0) ]%string.


(** ** Notions used in the further properties *)

(** The oscillator that [triggerBeepForEmotion] sets up from a base
    frequency and an intensity. *)
Definition beep (base intensity : Q) : Oscillator :=
  mkOscillator "sine" (Fin (base * (0.8 + intensity * 0.4)))
    (0.05 + intensity * 0.25) 0.01 0.15 0.05 0.25.

(** An oscillator as the sampler starts them: for one of the seven labels,
    with that label's base frequency, and for an intensity above the
    threshold that satisfies [P]. *)
Definition sampler_beep (P : Q -> Prop) (osc : Oscillator) : Prop :=
  exists name base v,
    name ∈ EMOTIONS /\ EMOTION_FREQS !! name = Some base
    /\ 0.2 < v /\ P v /\ osc = beep base v.

Definition is_click (ev : Event) : bool :=
  match ev with
  | MousePressed _ => true
  | _ => false
  end.

(** The first click among the events, with whether its unlock threw. *)
Fixpoint first_click (evs : list Event) : option bool :=
  match evs with
  | [] => None
  | MousePressed unlockThrows :: _ => Some unlockThrows
  | _ :: evs => first_click evs
  end.

(** A session in which the user clicks between two detected faces. *)
Definition click_session : list Event :=
  [ Sample (Face (Some happy_only)); Draw; MousePressed false;
    Sample (Face (Some happy_only)); Sample NoFace; MousePressed true;
    Sample (Face (Some tied_sample)); Draw ].

(** A session without a click. *)
Definition silent_session : list Event :=
  [ Sample (Face (Some happy_only)); Draw; Viewport 1200 700;
    WindowResized; Sample (Face (Some tied_sample)) ].


(** The frame [draw] paints in a state. *)
Definition frame (st : State) : list DrawCmd :=
  fst (draw st).

(** A rectangle lies between the left and the right edge of a canvas [w]
    wide, and its top edge between the top and the bottom of a canvas [h]
    high. *)
Definition on_canvas (w h : Z) (cmd : DrawCmd) : Prop :=
  match cmd with
  | Rect _ x y rw rh =>
      0 <= x /\ x + rw <= inject_Z w /\ 0 <= y /\ y <= inject_Z h
  | _ => True
  end.

Definition is_cell (cmd : DrawCmd) : bool :=
  match cmd with
  | Rect _ _ _ _ _ => true
  | _ => false
  end.

Definition is_line (cmd : DrawCmd) : bool :=
  match cmd with
  | Line _ _ _ _ => true
  | _ => false
  end.

(** A page 40 by 70 after a click and a few ticks, wider than its
    viewport by then. *)
Definition small_page : State :=
  run [ MousePressed false; Sample (Face (Some happy_only));
        Sample NoFace; Sample (Face (Some tied_sample));
        Sample (Face (Some faint_sample)); Sample Rejected;
        Sample (Face (Some happy_sample)); Sample NoFace;
        Sample (Face (Some happy_only)) ]
      (setup 40 70).


(** ** The cue emitter in binary64 *)

(** The cue emitter once more, with numbers as the script has them:
    IEEE-754 doubles, with the rounding of every operation, the two zeros
    and NaN.  Of the page only what the cue emitter reads and writes is
    kept: the audio flag and the list of oscillators. *)
Module Binary64.
Import PrimFloat.
#[local] Set Warnings "-inexact-float".
Local Open Scope float_scope.

Inductive Value :=
| VNumber (x : float)
| VUndefined
| VObject.

(** A number is falsy when it is 0, -0 or NaN. *)
Definition truthy_number (x : float) : bool :=
  negb (x =? 0) && negb (is_nan x).

Definition truthy (v : Value) : bool :=
  match v with
  | VNumber x => truthy_number x
  | VUndefined => false
  | VObject => true
  end.

(** [a || b] *)
Definition or_else (a b : Value) : Value :=
  if truthy a then a else b.

(** ToNumber *)
Definition to_number (v : Value) : float :=
  match v with
  | VNumber x => x
  | VUndefined => nan
  | VObject => nan
  end.

(** [o[k]], own properties first, then [Object.prototype]. *)
Definition get (o : gmap string float) (k : string) : Value :=
  match o !! k with
  | Some x => VNumber x
  | None => if bool_decide (k ∈ Object_prototype) then VObject else VUndefined
  end.

(** [o[k] || 0] for an emotion label [k]. *)
Definition get_or_zero (o : gmap string float) (k : string) : float :=
  match o !! k with
  | Some x => if truthy_number x then x else 0
  | None => 0
  end.

Definition EMOTION_FREQS : gmap string float :=
  list_to_map
    [ ("neutral", 220); ("happy", 880); ("sad", 260); ("angry", 440);
      ("fearful", 600); ("disgusted", 320); ("surprised", 700) ]%string.

Record Oscillator := mkOscillator {
  osc_type : string;
  osc_freq : float;
  osc_amp : float;
  osc_attack : float;
  osc_release : float;
  osc_release_delay : float;
  osc_stop : float
}.

Record Sound := mkSound {
  audioInitialized : bool;
  oscillators : list Oscillator
}.

Definition triggerBeepForEmotion (name : string) (intensity : float)
    (st : Sound) : Sound :=
  if negb (audioInitialized st) then st
  else
    let baseFreq := or_else (get EMOTION_FREQS name) (VNumber 440) in
    let freq := to_number baseFreq * (0.8 + intensity * 0.4) in
    let amp := 0.05 + intensity * 0.25 in
    mkSound (audioInitialized st)
      (oscillators st ++ [mkOscillator "sine" freq amp 0.01 0.15 0.05 0.25]).

(** One turn of the loop over [EMOTIONS]; [v > bestVal] is false when
    either side is NaN. *)
Definition better (snapshot : gmap string float)
    (best : option string * float) (name : string)
    : option string * float :=
  let v := get_or_zero snapshot name in
  if snd best <? v then (Some name, v) else best.

Definition dominant (snapshot : gmap string float) : option string * float :=
  foldl (better snapshot) (None, 0) EMOTIONS.

(** [if (bestName && bestVal > 0.2) triggerBeepForEmotion(...)] *)
Definition beepForDominant (snapshot : gmap string float) (st : Sound)
    : Sound :=
  match dominant snapshot with
  | (Some bestName, bestVal) =>
      if negb (String.eqb bestName "") && (0.2 <? bestVal)
      then triggerBeepForEmotion bestName bestVal st
      else st
  | (None, _) => st
  end.

(** The real number a double stands for (none for NaN and the
    infinities). *)
Definition exact (x : float) : option Q :=
  match FloatOps.Prim2SF x with
  | SpecFloat.S754_zero _ => Some 0%Q
  | SpecFloat.S754_finite s m e =>
      Some ((if s then -1 else 1) * inject_Z (Z.pos m) * Qpower 2 e)%Q
  | _ => None
  end.

(** The Sample with happy at 0.9 and every other label at 0. *)
Definition happy_sample : gmap string float :=
  list_to_map
    [ ("neutral", 0); ("happy", 0.9); ("sad", 0); ("angry", 0);
      ("fearful", 0); ("disgusted", 0); ("surprised", 0) ]%string.

(** Audio unlocked, nothing played yet. *)
Definition unlocked : Sound :=
  mkSound true [].

End Binary64.

(** ** Numbers and property reads *)

Lemma Qgtb_true (a b : Q) : Qgtb a b = true <-> b < a.
Proof.
  unfold Qgtb. rewrite (Qgt_alt a b).
  destruct (a ?= b); split; intros H; congruence.
Qed.

Lemma Qgtb_false (a b : Q) : Qgtb a b = false <-> a <= b.
Proof.
  unfold Qgtb. rewrite (Qle_alt a b).
  destruct (a ?= b); split; intros H; congruence.
Qed.

Lemma unit_intervalb_true (v : Q) : unit_intervalb v = true <-> 0 <= v <= 1.
Proof.
  unfold unit_intervalb. rewrite andb_true_iff, !Qle_bool_iff. reflexivity.
Qed.

Lemma get_or_zero_Some (o : gmap string Q) (k : string) (q : Q) :
  o !! k = Some q -> get_or_zero o k == q.
Proof.
  intros H. unfold get_or_zero. rewrite H.
  destruct (Qeq_bool q 0) eqn:E; [|reflexivity].
  apply Qeq_bool_iff in E. symmetry. exact E.
Qed.

Lemma get_or_zero_None (o : gmap string Q) (k : string) :
  o !! k = None -> get_or_zero o k = 0.
Proof. intros H. unfold get_or_zero. rewrite H. reflexivity. Qed.

Lemma EMOTIONS_not_inherited (k : string) :
  k ∈ EMOTIONS -> k ∉ Object_prototype.
Proof.
  assert (H : Forall (fun k => k ∉ Object_prototype) EMOTIONS).
  { apply (bool_decide_unpack _). vm_compute. exact I. }
  rewrite Forall_forall in H. apply H.
Qed.

(** On an emotion label the read [o[k] || 0] never meets the prototype:
    it is [get_or_zero]. *)
Lemma label_read (o : gmap string Q) (k : string) :
  k ∈ EMOTIONS ->
  or_else (get o k) (VNumber (Fin 0)) = VNumber (Fin (get_or_zero o k)).
Proof.
  intros Hk. apply EMOTIONS_not_inherited in Hk.
  unfold or_else, get, get_or_zero.
  destruct (o !! k) as [q|].
  - simpl. destruct (Qeq_bool q 0); reflexivity.
  - rewrite bool_decide_eq_false_2 by exact Hk. reflexivity.
Qed.

(** ** The snapshot of a tick *)

Lemma foldl_assign_lookup (f : string -> Q) (names : list string)
    (snapshot : gmap string Q) (k : string) :
  foldl (fun snap name => <[name := f name]> snap) snapshot names !! k
  = if bool_decide (k ∈ names) then Some (f k) else snapshot !! k.
Proof.
  revert snapshot.
  induction names as [|n names IH]; intros snapshot; cbn [foldl].
  - rewrite bool_decide_eq_false_2; [reflexivity | apply not_elem_of_nil].
  - rewrite IH. destruct (decide (k ∈ names)) as [Hin|Hin].
    + rewrite !bool_decide_eq_true_2; [reflexivity | | exact Hin].
      by apply elem_of_cons; right.
    + rewrite (bool_decide_eq_false_2 _ Hin).
      destruct (decide (k = n)) as [->|Hne].
      * rewrite lookup_insert_eq, bool_decide_eq_true_2; [reflexivity|].
        by apply elem_of_cons; left.
      * rewrite lookup_insert_ne by congruence.
        rewrite bool_decide_eq_false_2; [reflexivity|].
        intros [?|?]%elem_of_cons; contradiction.
Qed.

Lemma forEach_assign_lookup (f : string -> Q) (snapshot : gmap string Q)
    (k : string) :
  forEach_assign f snapshot !! k
  = if bool_decide (k ∈ EMOTIONS) then Some (f k) else snapshot !! k.
Proof. apply foldl_assign_lookup. Qed.

Lemma takeSnapshot_lookup (d : Detection) (k : string) :
  takeSnapshot d !! k
  = if bool_decide (k ∈ EMOTIONS)
    then Some (match reported d k with
               | Some q => if Qeq_bool q 0 then 0 else q
               | None => 0
               end)
    else None.
Proof.
  destruct d as [| |[e|]]; simpl; rewrite forEach_assign_lookup;
    rewrite ?lookup_empty; reflexivity.
Qed.

Lemma takeSnapshot_fails (d : Detection) :
  detection_fails d -> takeSnapshot d = takeSnapshot NoFace.
Proof. destruct d as [| |[e|]]; simpl; intros H; [done..|contradiction|done]. Qed.

(** ** What each callback leaves alone *)

(** Unfold the callbacks down to the record and split on their tests. *)
Ltac callback_cases :=
  unfold sample, growCanvas, beepForDominant, triggerBeepForEmotion,
    windowResized, mousePressed, draw;
  repeat match goal with
         | |- context [match dominant ?s with _ => _ end] =>
             destruct (dominant s) as [[?|] ?]
         | |- context [if ?b then _ else _] => destruct b
         end;
  try reflexivity.

Lemma triggerBeepForEmotion_history name intensity st :
  emotionHistory (triggerBeepForEmotion name intensity st) = emotionHistory st.
Proof. callback_cases. Qed.

Lemma beepForDominant_history snapshot st :
  emotionHistory (beepForDominant snapshot st) = emotionHistory st.
Proof. callback_cases. Qed.

Lemma beepForDominant_viewport snapshot st :
  innerWidth (beepForDominant snapshot st) = innerWidth st
  /\ width (beepForDominant snapshot st) = width st.
Proof. callback_cases; split; reflexivity. Qed.

Lemma sample_history d st :
  emotionHistory (sample d st) = emotionHistory st ++ [takeSnapshot d].
Proof. callback_cases. Qed.

Lemma step_history st ev :
  emotionHistory (step st ev)
  = emotionHistory st
    ++ match ev with Sample d => [takeSnapshot d] | _ => [] end.
Proof.
  destruct ev; cbn [step]; rewrite ?sample_history, ?app_nil_r;
    try reflexivity; callback_cases.
Qed.

Lemma run_app evs1 evs2 st :
  run (evs1 ++ evs2) st = run evs2 (run evs1 st).
Proof. apply foldl_app. Qed.

Lemma run_history evs st :
  emotionHistory (run evs st)
  = emotionHistory st ++ map takeSnapshot (detections evs).
Proof.
  revert st. induction evs as [|ev evs IH]; intros st.
  - simpl. by rewrite app_nil_r.
  - change (run (ev :: evs) st) with (run evs (step st ev)).
    rewrite IH, step_history.
    destruct ev; cbn [detections map]; rewrite <- ?app_assoc; reflexivity.
Qed.

Lemma detections_length evs : length (detections evs) = ticks evs.
Proof.
  unfold ticks. induction evs as [|[] evs IH]; simpl; congruence.
Qed.

Lemma dominant_all_zero : dominant (takeSnapshot NoFace) = (None, 0).
Proof. vm_compute. reflexivity. Qed.

Lemma sample_fails_silent d st :
  detection_fails d ->
  oscillators (sample d st) = oscillators st
  /\ console (sample d st) = console st
  /\ audioInitialized (sample d st) = audioInitialized st.
Proof.
  intros H%takeSnapshot_fails. unfold sample, beepForDominant.
  rewrite H, dominant_all_zero. unfold growCanvas.
  destruct (negb _); repeat split; reflexivity.
Qed.

(** ** History *)

(** C6: History is append-only.  Every callback leaves the earlier entries
    of [emotionHistory] where they are; a sampling tick appends exactly one
    snapshot and no other callback appends any.  So the history after a
    run is a prefix of the history after any longer run, its length never
    decreases, and from [setup] on it equals the number of sampling ticks
    completed. *)
Theorem history_append_only :
  (forall st ev,
     exists added,
       emotionHistory (step st ev) = emotionHistory st ++ added
       /\ length added = if is_tick ev then 1%nat else 0%nat)
  /\ (forall evs more st,
        emotionHistory (run evs st)
          `prefix_of` emotionHistory (run (evs ++ more) st)
        /\ (length (emotionHistory (run evs st))
            <= length (emotionHistory (run (evs ++ more) st)))%nat)
  /\ (forall iw ih evs,
        length (emotionHistory (run evs (setup iw ih))) = ticks evs).
Proof.
  split; [|split].
  - intros st ev. eexists. split; [apply step_history|].
    destruct ev; reflexivity.
  - intros evs more st. rewrite run_app.
    rewrite (run_history more). split.
    + by eexists.
    + rewrite length_app. lia.
  - intros iw ih evs. rewrite run_history. cbn [setup emotionHistory app].
    rewrite length_map. apply detections_length.
Qed.

(** C4: every Sample in History has all 7 labels, each with a value in
    [0, 1], and a label that face-api did not report has the value 0.
    Stated for the whole history after any run from [setup]: its entries
    are, in order, the snapshots of the ticks' detections; the bounds hold
    provided every detection reported values in [0, 1]. *)
Theorem history_samples_complete (iw ih : Z) (evs : list Event) :
  Forall event_reports_unit evs ->
  Forall2
    (fun d snapshot =>
       forall name, name ∈ EMOTIONS ->
         exists v, snapshot !! name = Some v
                   /\ 0 <= v <= 1
                   /\ (reported d name = None -> v = 0))
    (detections evs)
    (emotionHistory (run evs (setup iw ih))).
Proof.
  intros Hevs. rewrite run_history. cbn [setup emotionHistory app].
  induction Hevs as [|ev evs Hev _ IH]; [constructor|].
  destruct ev as [| d | | |]; cbn [detections map]; try exact IH.
  constructor; [|exact IH].
  intros name Hname. rewrite takeSnapshot_lookup.
  rewrite bool_decide_eq_true_2 by exact Hname.
  eexists. split; [reflexivity|].
  destruct (reported d name) as [q|] eqn:Hq.
  - split; [|discriminate].
    destruct d as [| |[e|]]; try discriminate. simpl in Hq, Hev.
    apply (Hev name q) in Hq. apply unit_intervalb_true in Hq.
    destruct (Qeq_bool q 0); [split; discriminate | exact Hq].
  - split; [split; discriminate | reflexivity].
Qed.

(** C5: a tick whose detection fails (the promise rejects, no face is
    found, or the detection carries no expressions) appends the snapshot
    that maps each of the 7 labels to 0 and nothing else, and completes:
    it starts no oscillator, writes nothing to the console, leaves the
    audio flag alone, and the three kinds of failure give the same
    state. *)
Theorem failed_detection_appends_zeros (d : Detection) (st : State) :
  detection_fails d ->
  emotionHistory (sample d st) = emotionHistory st ++ [takeSnapshot d]
  /\ (forall name,
        takeSnapshot d !! name
        = if bool_decide (name ∈ EMOTIONS) then Some 0 else None)
  /\ oscillators (sample d st) = oscillators st
  /\ console (sample d st) = console st
  /\ audioInitialized (sample d st) = audioInitialized st
  /\ sample d st = sample NoFace st.
Proof.
  intros Hd. split; [apply sample_history|].
  split.
  { intros name. rewrite takeSnapshot_lookup.
    destruct d as [| |[e|]]; try contradiction; reflexivity. }
  destruct (sample_fails_silent d st Hd) as (Ho & Hc & Ha).
  repeat split; try assumption.
  unfold sample. by rewrite (takeSnapshot_fails d Hd).
Qed.

(** ** The dominant emotion *)

Section Dominant.
Variable snapshot : gmap string Q.

(** Labels that are not stronger than the best so far change nothing. *)
Lemma foldl_better_keep (names : list string) (best : option string * Q) :
  Forall (fun n => get_or_zero snapshot n <= snd best) names ->
  foldl (better snapshot) best names = best.
Proof.
  induction 1 as [|n names Hn _ IH]; [reflexivity|].
  cbn [foldl]. unfold better at 2.
  apply Qgtb_false in Hn. rewrite Hn. exact IH.
Qed.

(** Labels below a bound leave the best value below it. *)
Lemma foldl_better_below (names : list string) (best : option string * Q)
    (m : Q) :
  snd best < m ->
  Forall (fun n => get_or_zero snapshot n < m) names ->
  snd (foldl (better snapshot) best names) < m.
Proof.
  intros Hb Hnames. revert best Hb.
  induction Hnames as [|n names Hn _ IH]; intros best Hb; [exact Hb|].
  cbn [foldl]. apply IH. unfold better.
  destruct (Qgtb _ _); [exact Hn | exact Hb].
Qed.

(** The best value only grows, and it bounds every label seen. *)
Lemma foldl_better_upper (names : list string) (best : option string * Q) :
  snd best <= snd (foldl (better snapshot) best names)
  /\ Forall
       (fun n =>
          get_or_zero snapshot n <= snd (foldl (better snapshot) best names))
       names.
Proof.
  revert best. induction names as [|n names IH]; intros best.
  - split; [apply Qle_refl | constructor].
  - cbn [foldl]. destruct (IH (better snapshot best n)) as [Hle Hall].
    assert (Hstep :
              snd best <= snd (better snapshot best n)
              /\ get_or_zero snapshot n <= snd (better snapshot best n)).
    { unfold better.
      destruct (Qgtb (get_or_zero snapshot n) (snd best)) eqn:E; cbn [snd].
      - apply Qgtb_true in E. split; [lra | apply Qle_refl].
      - apply Qgtb_false in E. split; [apply Qle_refl | exact E]. }
    destruct Hstep as [H1 H2]. split; [lra|].
    constructor; [lra | exact Hall].
Qed.

(** Either no label beat the start, or the result is a label of the list
    together with its own value, which beats the start. *)
Lemma foldl_better_attained (names : list string)
    (best : option string * Q) :
  foldl (better snapshot) best names = best
  \/ exists n, n ∈ names
       /\ foldl (better snapshot) best names
          = (Some n, get_or_zero snapshot n)
       /\ snd best < get_or_zero snapshot n.
Proof.
  revert best. induction names as [|n names IH]; intros best.
  - by left.
  - cbn [foldl]. destruct (IH (better snapshot best n)) as [Heq|Hex].
    + rewrite Heq. unfold better.
      destruct (Qgtb (get_or_zero snapshot n) (snd best)) eqn:E; [|by left].
      right. exists n. apply Qgtb_true in E.
      split; [by apply elem_of_cons; left | by split].
    + right. destruct Hex as (n' & Hin & Heq & Hlt). exists n'.
      split; [by apply elem_of_cons; right|]. split; [exact Heq|].
      revert Hlt. unfold better.
      destruct (Qgtb (get_or_zero snapshot n) (snd best)) eqn:E; cbn [snd];
        [|done].
      apply Qgtb_true in E. lra.
Qed.
End Dominant.

Lemma EMOTIONS_nonempty (name : string) :
  name ∈ EMOTIONS -> String.eqb name "" = false.
Proof.
  assert (H : Forall (fun n => String.eqb n "" = false) EMOTIONS).
  { apply (bool_decide_unpack _). vm_compute. exact I. }
  rewrite Forall_forall in H. apply H.
Qed.

Lemma exceeds_threshold_value (snapshot : gmap string Q) :
  exceeds_threshold snapshot
  <-> exists name, name ∈ EMOTIONS /\ 0.2 < get_or_zero snapshot name.
Proof.
  split.
  - intros (name & v & Hin & Hv & Hlt). exists name. split; [exact Hin|].
    rewrite (get_or_zero_Some _ _ _ Hv). exact Hlt.
  - intros (name & Hin & Hlt). unfold get_or_zero in Hlt.
    destruct (snapshot !! name) as [v|] eqn:Hv; [|lra].
    exists name, v. split; [exact Hin|]. split; [exact Hv|].
    destruct (Qeq_bool v 0); [lra | exact Hlt].
Qed.

(** The two ways the cue emitter can go. *)
Lemma beepForDominant_cases (snapshot : gmap string Q) (st : State) :
  (exceeds_threshold snapshot
   /\ exists name, name ∈ EMOTIONS
        /\ dominant snapshot = (Some name, get_or_zero snapshot name)
        /\ beepForDominant snapshot st
           = triggerBeepForEmotion name (get_or_zero snapshot name) st)
  \/ (~ exceeds_threshold snapshot /\ beepForDominant snapshot st = st).
Proof.
  rewrite exceeds_threshold_value. unfold beepForDominant.
  destruct (foldl_better_upper snapshot EMOTIONS (None, 0)) as [_ Hup].
  rewrite Forall_forall in Hup. fold (dominant snapshot) in Hup.
  destruct (foldl_better_attained snapshot EMOTIONS (None, 0))
    as [Heq | (n & Hin & Heq & Hpos)]; fold (dominant snapshot) in Heq.
  - right. rewrite Heq in *. split; [|reflexivity].
    intros (name & Hname & Hlt). specialize (Hup name Hname).
    cbn [snd] in Hup. lra.
  - rewrite Heq in *. cbn [snd] in Hup.
    rewrite (EMOTIONS_nonempty n Hin). cbn [negb andb].
    destruct (Qgtb (get_or_zero snapshot n) 0.2) eqn:E.
    + left. apply Qgtb_true in E. split; [by exists n|]. by exists n.
    + right. apply Qgtb_false in E. split; [|reflexivity].
      intros (name & Hname & Hlt). specialize (Hup name Hname). lra.
Qed.

Lemma exceeds_thresholdb_spec (snapshot : gmap string Q) :
  exceeds_thresholdb snapshot = true <-> exceeds_threshold snapshot.
Proof.
  unfold exceeds_thresholdb, exceeds_threshold.
  rewrite existsb_exists. split.
  - intros (name & Hin & H). apply list_elem_of_In in Hin.
    destruct (snapshot !! name) as [v|] eqn:Hv; [|discriminate].
    apply Qgtb_true in H. by exists name, v.
  - intros (name & v & Hin & Hv & Hlt). exists name.
    split; [by apply list_elem_of_In|]. rewrite Hv. by apply Qgtb_true.
Qed.

Lemma exceeds_thresholdb_false (snapshot : gmap string Q) :
  exceeds_thresholdb snapshot = false -> ~ exceeds_threshold snapshot.
Proof.
  intros H Hex. apply exceeds_thresholdb_spec in Hex. congruence.
Qed.

Lemma triggerBeepForEmotion_unlocked name intensity st :
  audioInitialized st = true ->
  exists osc,
    oscillators (triggerBeepForEmotion name intensity st)
    = oscillators st ++ [osc].
Proof.
  intros H. unfold triggerBeepForEmotion. rewrite H. by eexists.
Qed.

(** ** The cue emitter *)

(** C2: a Sample none of whose labels is stronger than 0.2 makes the cue
    emitter do nothing at all; and once audio is unlocked, the cue emitter
    starts an oscillator (one) exactly when some label's intensity is
    strictly greater than 0.2. *)
Theorem cue_iff_above_threshold (snapshot : gmap string Q) (st : State) :
  (~ exceeds_threshold snapshot -> beepForDominant snapshot st = st)
  /\ (audioInitialized st = true ->
      (exceeds_threshold snapshot
       <-> exists osc,
             oscillators (beepForDominant snapshot st)
             = oscillators st ++ [osc])).
Proof.
  destruct (beepForDominant_cases snapshot st)
    as [(Hex & name & _ & _ & Heq) | (Hno & Heq)]; rewrite Heq.
  - split; [contradiction|]. intros Haudio. split; [|done].
    intros _. by apply triggerBeepForEmotion_unlocked.
  - split; [done|]. intros _. split; [contradiction|].
    intros (osc & Hosc). apply (f_equal length) in Hosc.
    rewrite length_app in Hosc. simpl in Hosc. lia.
Qed.

Lemma cue_iff_above_threshold_witness :
  beepForDominant faint_sample unlocked_page = unlocked_page
  /\ (exceeds_threshold happy_sample
      <-> exists osc,
            oscillators (beepForDominant happy_sample unlocked_page)
            = oscillators unlocked_page ++ [osc]).
Proof.
  split.
  - apply (cue_iff_above_threshold faint_sample unlocked_page).
    apply exceeds_thresholdb_false. vm_compute. reflexivity.
  - apply (cue_iff_above_threshold happy_sample unlocked_page).
    reflexivity.
Defined.

Section HappyCue.
Import PrimFloat.
#[local] Set Warnings "-inexact-float".

Lemma binary64_dominant_happy :
  Binary64.dominant Binary64.happy_sample = (Some "happy"%string, 0.9%float).
Proof. vm_compute. reflexivity. Qed.

(** C1 (as amended): for the Sample with happy at 0.9 and the other
    labels at 0 the cue emitter selects happy, reads the base frequency
    880 from the table, and (audio being unlocked) starts one sine
    oscillator.  Its frequency is 880 x (0.8 + 0.9 x 0.4) as binary64
    computes it, the double 1020.8000000000002, which lies above 1020.8
    by less than 2e-13; its amplitude is 0.05 + 0.9 x 0.25 as binary64
    computes it, the double 0.275. *)
Theorem happy_cue_binary64 (st : Binary64.Sound) :
  Binary64.audioInitialized st = true ->
  Binary64.dominant Binary64.happy_sample = (Some "happy"%string, 0.9%float)
  /\ Binary64.get Binary64.EMOTION_FREQS "happy"
     = Binary64.VNumber 880%float
  /\ Binary64.oscillators (Binary64.beepForDominant Binary64.happy_sample st)
     = Binary64.oscillators st
       ++ [Binary64.mkOscillator "sine" 1020.8000000000002%float
             0.275%float 0.01%float 0.15%float 0.05%float 0.25%float]
  /\ (880 * (0.8 + 0.9 * 0.4))%float = 1020.8000000000002%float
  /\ (0.05 + 0.9 * 0.25)%float = 0.275%float
  /\ (exists q, Binary64.exact 1020.8000000000002%float = Some q
                /\ 1020.8 < q /\ q < 1020.8 + 0.0000000000002)
  /\ (exists a, Binary64.exact 0.275%float = Some a
                /\ 0.275 - 0.0000000000000001 < a
                /\ a < 0.275 + 0.0000000000000001).
Proof.
  intros Haudio. split; [exact binary64_dominant_happy|].
  split; [vm_compute; reflexivity|].
  split.
  { unfold Binary64.beepForDominant. rewrite binary64_dominant_happy.
    replace (negb ("happy" =? "")%string && (0.2 <? 0.9)%float) with true
      by (vm_compute; reflexivity).
    unfold Binary64.triggerBeepForEmotion. rewrite Haudio. cbn [negb].
    cbn [Binary64.oscillators]. f_equal. }
  split; [vm_compute; reflexivity|].
  split; [vm_compute; reflexivity|].
  split; eexists; (split; [vm_compute; reflexivity|]);
    split; vm_compute; reflexivity.
Qed.

Lemma happy_cue_binary64_witness :
  Binary64.dominant Binary64.happy_sample = (Some "happy"%string, 0.9%float)
  /\ Binary64.get Binary64.EMOTION_FREQS "happy"
     = Binary64.VNumber 880%float
  /\ Binary64.oscillators
       (Binary64.beepForDominant Binary64.happy_sample Binary64.unlocked)
     = Binary64.oscillators Binary64.unlocked
       ++ [Binary64.mkOscillator "sine" 1020.8000000000002%float
             0.275%float 0.01%float 0.15%float 0.05%float 0.25%float]
  /\ (880 * (0.8 + 0.9 * 0.4))%float = 1020.8000000000002%float
  /\ (0.05 + 0.9 * 0.25)%float = 0.275%float
  /\ (exists q, Binary64.exact 1020.8000000000002%float = Some q
                /\ 1020.8 < q /\ q < 1020.8 + 0.0000000000002)
  /\ (exists a, Binary64.exact 0.275%float = Some a
                /\ 0.275 - 0.0000000000000001 < a
                /\ a < 0.275 + 0.0000000000000001).
Proof. apply (happy_cue_binary64 Binary64.unlocked). reflexivity. Defined.

(** C1 as stated fails in binary64: the frequency the oscillator is given
    for this Sample is not the double nearest to 1020.8, and the real
    number it stands for is greater than 1020.8. *)
Lemma happy_frequency_is_not_1020_8 :
  exists f q,
    Binary64.osc_freq
      <$> Binary64.oscillators
            (Binary64.beepForDominant Binary64.happy_sample
               Binary64.unlocked)
    = [f]
    /\ (f =? 1020.8)%float = false
    /\ Binary64.exact f = Some q
    /\ ~ q == 1020.8
    /\ 1020.8 < q.
Proof.
  eexists _, _. split; [vm_compute; reflexivity|].
  split; [vm_compute; reflexivity|].
  split; [vm_compute; reflexivity|].
  split; [vm_compute; discriminate | vm_compute; reflexivity].
Qed.

End HappyCue.

(** C3 (as amended): whenever the strongest intensity of a Sample is
    greater than 0, the selection returns the first label, in the order of
    [EMOTIONS], that has it: every label before it is strictly weaker and
    no label after it is stronger.  In particular, of two or more labels
    that tie at a positive maximum the earliest one is selected. *)
Theorem dominant_first_maximum (snapshot : gmap string Q)
    (before after : list string) (name : string) :
  EMOTIONS = before ++ name :: after ->
  0 < get_or_zero snapshot name ->
  Forall (fun n => get_or_zero snapshot n < get_or_zero snapshot name)
    before ->
  Forall (fun n => get_or_zero snapshot n <= get_or_zero snapshot name)
    after ->
  dominant snapshot = (Some name, get_or_zero snapshot name).
Proof.
  intros Hsplit Hpos Hbefore Hafter. unfold dominant. rewrite Hsplit.
  rewrite foldl_app. cbn [foldl].
  pose proof (foldl_better_below snapshot before (None, 0)
                (get_or_zero snapshot name) Hpos Hbefore) as Hlt.
  apply Qgtb_true in Hlt. unfold better at 2. rewrite Hlt.
  apply foldl_better_keep. exact Hafter.
Qed.

Lemma dominant_first_maximum_witness :
  dominant tied_sample = (Some "happy", get_or_zero tied_sample "happy").
Proof.
  apply (dominant_first_maximum tied_sample ["neutral"]
           ["sad"; "angry"; "fearful"; "disgusted"; "surprised"] "happy")%string.
  - reflexivity.
  - vm_compute. reflexivity.
  - repeat constructor.
  - repeat constructor; vm_compute; discriminate.
Defined.

(** When no label is stronger than 0, none is selected. *)
Lemma dominant_none (snapshot : gmap string Q) :
  Forall (fun n => get_or_zero snapshot n <= 0) EMOTIONS ->
  dominant snapshot = (None, 0).
Proof. apply (foldl_better_keep snapshot EMOTIONS (None, 0)). Qed.

(** C3 as stated fails on the all-zero Sample: its seven labels share the
    maximum, 0, yet the selection returns no label, not the first one. *)
Lemma all_zero_tie_selects_no_label :
  Forall (fun n => takeSnapshot NoFace !! n = Some 0) EMOTIONS
  /\ fst (dominant (takeSnapshot NoFace)) = None
  /\ fst (dominant (takeSnapshot NoFace)) <> head EMOTIONS.
Proof.
  split; [|split].
  - rewrite Forall_forall. intros n Hn. rewrite takeSnapshot_lookup.
    by rewrite bool_decide_eq_true_2.
  - by rewrite dominant_all_zero.
  - by rewrite dominant_all_zero.
Qed.

(** C9: while audio is still locked, triggering a cue, for whatever label
    and intensity, gives back the state it was given: no oscillator is
    started and nothing else changes. *)
Theorem locked_audio_drops_cue (name : string) (intensity : Q) (st : State) :
  audioInitialized st = false ->
  triggerBeepForEmotion name intensity st = st
  /\ oscillators (triggerBeepForEmotion name intensity st) = oscillators st.
Proof.
  intros H. unfold triggerBeepForEmotion. rewrite H. by split.
Qed.

Lemma locked_audio_drops_cue_witness :
  triggerBeepForEmotion "happy" 0.9 (setup 1000 700) = setup 1000 700
  /\ oscillators (triggerBeepForEmotion "happy" 0.9 (setup 1000 700))
     = oscillators (setup 1000 700).
Proof.
  apply (locked_audio_drops_cue "happy" 0.9 (setup 1000 700)). reflexivity.
Defined.

Lemma history_samples_complete_witness :
  Forall2
    (fun d snapshot =>
       forall name, name ∈ EMOTIONS ->
         exists v, snapshot !! name = Some v
                   /\ 0 <= v <= 1
                   /\ (reported d name = None -> v = 0))
    (detections short_session)
    (emotionHistory (run short_session (setup 1000 700))).
Proof.
  apply (history_samples_complete 1000 700 short_session).
  repeat constructor. apply (bool_decide_unpack _). vm_compute. exact I.
Defined.

Lemma failed_detection_appends_zeros_witness :
  emotionHistory (sample Rejected unlocked_page)
  = emotionHistory unlocked_page ++ [takeSnapshot Rejected]
  /\ (forall name,
        takeSnapshot Rejected !! name
        = if bool_decide (name ∈ EMOTIONS) then Some 0 else None)
  /\ oscillators (sample Rejected unlocked_page) = oscillators unlocked_page
  /\ console (sample Rejected unlocked_page) = console unlocked_page
  /\ audioInitialized (sample Rejected unlocked_page)
     = audioInitialized unlocked_page
  /\ sample Rejected unlocked_page = sample NoFace unlocked_page.
Proof.
  apply (failed_detection_appends_zeros Rejected unlocked_page). exact I.
Defined.

(** ** The width of the canvas *)


Lemma growCanvas_width st :
  width (growCanvas st) = neededWidth st
  /\ innerWidth (growCanvas st) = innerWidth st
  /\ emotionHistory (growCanvas st) = emotionHistory st.
Proof.
  unfold growCanvas.
  destruct (Z.eqb_spec (width st) (neededWidth st)) as [Heq|Hne];
    cbn [negb]; [by rewrite Heq | done].
Qed.

Lemma sample_width d st :
  width (sample d st)
  = requiredWidth (innerWidth st) (S (length (emotionHistory st)))
  /\ innerWidth (sample d st) = innerWidth st.
Proof.
  unfold sample.
  destruct (growCanvas_width
              (beepForDominant (takeSnapshot d) (push (takeSnapshot d) st)))
    as (Hw & Hi & _).
  rewrite Hw, Hi. unfold neededWidth.
  rewrite beepForDominant_history.
  destruct (beepForDominant_viewport (takeSnapshot d)
              (push (takeSnapshot d) st)) as [-> _].
  cbn [push emotionHistory innerWidth]. rewrite length_app. cbn [length].
  by rewrite Nat.add_1_r.
Qed.

Lemma windowResized_width st :
  width (windowResized st)
  = requiredWidth (innerWidth st) (length (emotionHistory st)).
Proof. reflexivity. Qed.









(** ** Colours *)

Lemma lerp_mono (start stop v1 v2 : Q) :
  start <= stop -> v1 <= v2 -> lerp start stop v1 <= lerp start stop v2.
Proof. unfold lerp. intros H1 H2. nra. Qed.

Lemma lerp_Qeq (start stop v1 v2 : Q) :
  v1 == v2 -> lerp start stop v1 == lerp start stop v2.
Proof. unfold lerp. intros ->. reflexivity. Qed.

(** Hue and saturation depend on the label only. *)
Lemma getEmotionColor_hue_saturation (name : string) (v1 v2 : Q) :
  hue (getEmotionColor name v1) = hue (getEmotionColor name v2)
  /\ saturation (getEmotionColor name v1)
     = saturation (getEmotionColor name v2).
Proof.
  unfold getEmotionColor.
  repeat match goal with
         | |- context [String.eqb name ?s] => destruct (String.eqb name s)
         end; split; reflexivity.
Qed.

Lemma getEmotionColor_brightness (name : string) (v : Q) :
  brightness (getEmotionColor name v)
  = if String.eqb name "neutral" then lerp 30 80 v else lerp 10 100 v.
Proof.
  unfold getEmotionColor.
  repeat match goal with
         | |- context [String.eqb name ?s] => destruct (String.eqb name s)
         end; reflexivity.
Qed.

Lemma getEmotionColor_unknown (name : string) (v : Q) :
  name ∉ EMOTIONS -> getEmotionColor name v = color 0 0 (lerp 10 100 v).
Proof.
  intros Hname. unfold getEmotionColor.
  repeat match goal with
         | |- context [String.eqb name ?s] =>
             destruct (String.eqb_spec name s) as [->|_];
             [exfalso; apply Hname; unfold EMOTIONS; set_solver |]
         end.
  reflexivity.
Qed.

(** C8: the colour of a cell is a function of the label and the intensity
    alone: equal intensities give the same hue and saturation and equal
    brightness.  For every label the brightness does not decrease when the
    intensity grows.  For neutral the saturation is 0 and the brightness
    is the linear interpolation from 30 (at 0) to 80 (at 1); for each of
    the six coloured labels the saturation is positive and the brightness
    is the linear interpolation from 10 (at 0) to 100 (at 1). *)
Theorem cell_color_brightness :
  (forall name v1 v2,
     v1 == v2 ->
     hue (getEmotionColor name v1) = hue (getEmotionColor name v2)
     /\ saturation (getEmotionColor name v1)
        = saturation (getEmotionColor name v2)
     /\ brightness (getEmotionColor name v1)
        == brightness (getEmotionColor name v2))
  /\ (forall name v1 v2,
        v1 <= v2 ->
        brightness (getEmotionColor name v1)
        <= brightness (getEmotionColor name v2))
  /\ (forall v,
        saturation (getEmotionColor "neutral" v) = 0
        /\ brightness (getEmotionColor "neutral" v) == 30 + v * (80 - 30))
  /\ (forall name v,
        name ∈ EMOTIONS -> name <> "neutral"%string ->
        0 < saturation (getEmotionColor name v)
        /\ brightness (getEmotionColor name v) == 10 + v * (100 - 10))
  /\ brightness (getEmotionColor "neutral" 0) == 30
  /\ brightness (getEmotionColor "neutral" 1) == 80
  /\ (forall name,
        name ∈ EMOTIONS -> name <> "neutral"%string ->
        brightness (getEmotionColor name 0) == 10
        /\ brightness (getEmotionColor name 1) == 100).
Proof.
  assert (Hcoloured : forall name v,
             name ∈ EMOTIONS -> name <> "neutral"%string ->
             0 < saturation (getEmotionColor name v)
             /\ brightness (getEmotionColor name v) == 10 + v * (100 - 10)).
  { intros name v Hin Hne. unfold EMOTIONS in Hin.
    repeat (apply elem_of_cons in Hin as [-> | Hin];
            [first [ by destruct Hne
                   | split; [reflexivity | cbn; unfold lerp; ring] ]
            |]).
    by apply elem_of_nil in Hin. }
  split.
  { intros name v1 v2 Hv.
    destruct (getEmotionColor_hue_saturation name v1 v2) as [Hh Hs].
    split; [exact Hh|]. split; [exact Hs|].
    rewrite !getEmotionColor_brightness.
    destruct (String.eqb name "neutral"); by apply lerp_Qeq. }
  split.
  { intros name v1 v2 Hv. rewrite !getEmotionColor_brightness.
    destruct (String.eqb name "neutral"); apply lerp_mono;
      [discriminate | exact Hv | discriminate | exact Hv]. }
  split.
  { intros v. split; [reflexivity|]. cbn. unfold lerp. ring. }
  split; [exact Hcoloured|].
  split; [reflexivity|]. split; [reflexivity|].
  intros name Hin Hne.
  destruct (Hcoloured name 0 Hin Hne) as [_ ->].
  destruct (Hcoloured name 1 Hin Hne) as [_ ->].
  split; reflexivity.
Qed.

Lemma cell_color_brightness_witness :
  (hue (getEmotionColor "sad" (1 # 2)) = hue (getEmotionColor "sad" (2 # 4))
   /\ saturation (getEmotionColor "sad" (1 # 2))
      = saturation (getEmotionColor "sad" (2 # 4))
   /\ brightness (getEmotionColor "sad" (1 # 2))
      == brightness (getEmotionColor "sad" (2 # 4)))
  /\ brightness (getEmotionColor "neutral" 0.25)
     <= brightness (getEmotionColor "neutral" 0.75)
  /\ (0 < saturation (getEmotionColor "happy" 0.9)
      /\ brightness (getEmotionColor "happy" 0.9) == 10 + 0.9 * (100 - 10))
  /\ (brightness (getEmotionColor "surprised" 0) == 10
      /\ brightness (getEmotionColor "surprised" 1) == 100).
Proof.
  destruct cell_color_brightness
    as (Hdet & Hmono & _ & Hcol & _ & _ & Hends).
  split; [apply (Hdet "sad"%string (1 # 2) (2 # 4)); reflexivity|].
  split; [apply (Hmono "neutral"%string 0.25 0.75); discriminate|].
  split.
  - apply (Hcol "happy"%string 0.9); [|discriminate].
    apply (bool_decide_unpack _). vm_compute. exact I.
  - apply (Hends "surprised"%string); [|discriminate].
    apply (bool_decide_unpack _). vm_compute. exact I.
Defined.

(** ** Labels outside the seven *)

Lemma EMOTION_FREQS_unknown (name : string) :
  name ∉ EMOTIONS -> EMOTION_FREQS !! name = None.
Proof.
  intros Hname. unfold EMOTION_FREQS.
  apply not_elem_of_list_to_map_1. exact Hname.
Qed.

(** A label that is neither one of the seven nor a member of
    [Object.prototype] gets the base frequency 440. *)
Lemma unknown_label_base_frequency (name : string) :
  name ∉ EMOTIONS -> name ∉ Object_prototype ->
  or_else (get EMOTION_FREQS name) (VNumber (Fin 440)) = VNumber (Fin 440).
Proof.
  intros Hname Hproto. unfold get.
  rewrite (EMOTION_FREQS_unknown name Hname).
  rewrite bool_decide_eq_false_2 by exact Hproto. reflexivity.
Qed.

(** C10 (as amended): both lookups are total over label strings.  For a
    label outside the seven, [getEmotionColor] gives grey (hue 0,
    saturation 0) with the brightness [lerp(10, 100, value)]; and if the
    label is not the name of a member of [Object.prototype] either,
    [EMOTION_FREQS[name] || 440] is 440 and the cue, audio being unlocked,
    is the one oscillator for base frequency 440. *)
Theorem unknown_label_lookups (name : string) (v : Q) (st : State) :
  name ∉ EMOTIONS ->
  getEmotionColor name v = color 0 0 (lerp 10 100 v)
  /\ saturation (getEmotionColor name v) = 0
  /\ (name ∉ Object_prototype ->
      or_else (get EMOTION_FREQS name) (VNumber (Fin 440))
      = VNumber (Fin 440)
      /\ (audioInitialized st = true ->
          oscillators (triggerBeepForEmotion name v st)
          = oscillators st
            ++ [mkOscillator "sine" (Fin (440 * (0.8 + v * 0.4)))
                  (0.05 + v * 0.25) 0.01 0.15 0.05 0.25])).
Proof.
  intros Hname. rewrite (getEmotionColor_unknown name v Hname).
  split; [reflexivity|]. split; [reflexivity|].
  intros Hproto.
  pose proof (unknown_label_base_frequency name Hname Hproto) as Hbase.
  split; [exact Hbase|].
  intros Haudio. unfold triggerBeepForEmotion. rewrite Hbase, Haudio.
  reflexivity.
Qed.

Lemma unknown_label_lookups_witness :
  getEmotionColor "calm" 0.5 = color 0 0 (lerp 10 100 0.5)
  /\ saturation (getEmotionColor "calm" 0.5) = 0
  /\ or_else (get EMOTION_FREQS "calm") (VNumber (Fin 440))
     = VNumber (Fin 440)
  /\ oscillators (triggerBeepForEmotion "calm" 0.5 unlocked_page)
     = oscillators unlocked_page
       ++ [mkOscillator "sine" (Fin (440 * (0.8 + 0.5 * 0.4)))
             (0.05 + 0.5 * 0.25) 0.01 0.15 0.05 0.25].
Proof.
  assert (Hname : "calm"%string ∉ EMOTIONS).
  { apply (bool_decide_unpack _). vm_compute. exact I. }
  assert (Hproto : "calm"%string ∉ Object_prototype).
  { apply (bool_decide_unpack _). vm_compute. exact I. }
  destruct (unknown_label_lookups "calm" 0.5 unlocked_page Hname)
    as (Hc & Hs & Hf).
  destruct (Hf Hproto) as (Hb & Ho).
  split; [exact Hc|]. split; [exact Hs|]. split; [exact Hb|].
  apply Ho. reflexivity.
Defined.

(** C10 as stated fails at the label "constructor".  It is not one of
    the seven, yet [EMOTION_FREQS[name] || 440] does not fall back to 440
    for it: the read finds the member inherited from [Object.prototype],
    which is truthy, so the base frequency is that object and the
    oscillator is given the frequency NaN.  [getEmotionColor] does fall
    back to grey for the same label. *)
Theorem inherited_label_misses_fallback :
  ("constructor"%string ∉ EMOTIONS)
  /\ or_else (get EMOTION_FREQS "constructor") (VNumber (Fin 440)) = VObject
  /\ osc_freq
       <$> oscillators (triggerBeepForEmotion "constructor" 0.5 unlocked_page)
     = [NaN]
  /\ getEmotionColor "constructor" 0.5 = color 0 0 (lerp 10 100 0.5).
Proof.
  split.
  { apply (bool_decide_unpack _). vm_compute. exact I. }
  split; [vm_compute; reflexivity|].
  split; [vm_compute; reflexivity|].
  reflexivity.
Qed.

(** * Further properties of the script *)

(** ** Snapshots *)

Lemma EMOTIONS_NoDup : NoDup EMOTIONS.
Proof. apply (bool_decide_unpack _). vm_compute. exact I. Qed.

(** What [|| 0] gives is a fixed point of [|| 0]. *)
Lemma or_zero_twice (q : Q) :
  let x := if Qeq_bool q 0 then 0 else q in
  (if Qeq_bool x 0 then 0 else x) = x.
Proof. cbn. destruct (Qeq_bool q 0) eqn:E; [reflexivity | by rewrite E]. Qed.

(** X1: whatever face-api returns, the snapshot of a tick has exactly the
    seven emotion labels as its keys: labels that are missing are added
    and any other property of the detection is left behind. *)
Theorem snapshot_keys (d : Detection) :
  dom (takeSnapshot d) = list_to_set EMOTIONS
  /\ size (takeSnapshot d) = 7%nat.
Proof.
  assert (Hdom : dom (takeSnapshot d) = list_to_set EMOTIONS).
  { apply set_eq. intros k.
    rewrite elem_of_dom, takeSnapshot_lookup, elem_of_list_to_set.
    case_bool_decide as Hk; split; intros Hx; done. }
  split; [exact Hdom|].
  rewrite <- size_dom, Hdom.
  rewrite size_list_to_set by exact EMOTIONS_NoDup. reflexivity.
Qed.

(** X2: reading a label back from the snapshot, the way the cue emitter
    and the renderer read it, gives what reading it from the detection
    gave; and taking the snapshot of a snapshot changes nothing. *)
Theorem snapshot_read_back (d : Detection) (expressions : gmap string Q)
    (name : string) :
  name ∈ EMOTIONS ->
  get_or_zero (takeSnapshot (Face (Some expressions))) name
  = get_or_zero expressions name
  /\ takeSnapshot (Face (Some (takeSnapshot d))) = takeSnapshot d.
Proof.
  intros Hname. split.
  - unfold get_or_zero at 1. rewrite takeSnapshot_lookup.
    rewrite bool_decide_eq_true_2 by exact Hname. cbn [reported].
    unfold get_or_zero. destruct (expressions !! name) as [q|].
    + apply or_zero_twice.
    + reflexivity.
  - apply map_eq. intros k. rewrite !takeSnapshot_lookup.
    case_bool_decide as Hk; [|reflexivity]. f_equal.
    cbn [reported]. rewrite takeSnapshot_lookup.
    rewrite bool_decide_eq_true_2 by exact Hk.
    destruct (reported d k) as [q|]; [apply or_zero_twice | reflexivity].
Qed.

Lemma snapshot_read_back_witness :
  get_or_zero (takeSnapshot (Face (Some happy_only))) "happy"
  = get_or_zero happy_only "happy"
  /\ takeSnapshot (Face (Some (takeSnapshot NoFace))) = takeSnapshot NoFace.
Proof.
  apply (snapshot_read_back NoFace happy_only "happy").
  apply (bool_decide_unpack _). vm_compute. exact I.
Defined.

(** X3: from [setup] on, the history is exactly the list of the ticks'
    snapshots, in the order in which the detections settled; clicks,
    redraws and resizes leave no trace in it. *)
Theorem history_is_snapshots (iw ih : Z) (evs : list Event) :
  emotionHistory (run evs (setup iw ih)) = takeSnapshot <$> detections evs.
Proof. rewrite run_history. reflexivity. Qed.

(** ** The dominant emotion, in full *)

(** X4: either no label has an intensity above 0 and nothing is selected,
    or the selected label is one of the seven, the selected value is that
    label's intensity, it is positive, and no label is stronger. *)
Theorem dominant_spec (snapshot : gmap string Q) :
  match dominant snapshot with
  | (None, bestVal) =>
      bestVal = 0
      /\ Forall (fun n => get_or_zero snapshot n <= 0) EMOTIONS
  | (Some bestName, bestVal) =>
      bestName ∈ EMOTIONS
      /\ bestVal = get_or_zero snapshot bestName
      /\ 0 < bestVal
      /\ Forall (fun n => get_or_zero snapshot n <= bestVal) EMOTIONS
  end.
Proof.
  destruct (foldl_better_upper snapshot EMOTIONS (None, 0)) as [_ Hup].
  fold (dominant snapshot) in Hup.
  destruct (foldl_better_attained snapshot EMOTIONS (None, 0))
    as [Heq | (n & Hin & Heq & Hpos)]; fold (dominant snapshot) in Heq;
    rewrite Heq in *; cbn [snd] in *.
  - by split.
  - by repeat split.
Qed.

(** ** Cues *)

Lemma EMOTION_FREQS_known (name : string) :
  name ∈ EMOTIONS ->
  exists base, EMOTION_FREQS !! name = Some base /\ 220 <= base <= 880.
Proof.
  intros Hin. unfold EMOTIONS in Hin.
  repeat (apply elem_of_cons in Hin as [-> | Hin];
          [eexists; split; [vm_compute; reflexivity | split; discriminate]
          |]).
  by apply elem_of_nil in Hin.
Qed.

Lemma triggerBeepForEmotion_known name base v st :
  EMOTION_FREQS !! name = Some base -> 0 < base ->
  audioInitialized st = true ->
  triggerBeepForEmotion name v st = start_oscillator (beep base v) st.
Proof.
  intros Hbase Hpos Haudio. unfold triggerBeepForEmotion, get.
  rewrite Haudio, Hbase. cbn [negb]. unfold or_else. cbn [truthy].
  destruct (Qeq_bool base 0) eqn:E; [|reflexivity].
  apply Qeq_bool_iff in E. lra.
Qed.

(** The cue emitter, with what it knows when it triggers. *)
Lemma beepForDominant_detail (snapshot : gmap string Q) (st : State) :
  beepForDominant snapshot st = st
  \/ exists name,
       name ∈ EMOTIONS
       /\ 0.2 < get_or_zero snapshot name
       /\ beepForDominant snapshot st
          = triggerBeepForEmotion name (get_or_zero snapshot name) st.
Proof.
  unfold beepForDominant.
  destruct (foldl_better_attained snapshot EMOTIONS (None, 0))
    as [Heq | (n & Hin & Heq & _)]; fold (dominant snapshot) in Heq;
    rewrite Heq; [by left|].
  rewrite (EMOTIONS_nonempty n Hin). cbn [negb andb].
  destruct (Qgtb (get_or_zero snapshot n) 0.2) eqn:E; [|by left].
  right. exists n. apply Qgtb_true in E. by repeat split.
Qed.

Lemma growCanvas_oscillators st :
  oscillators (growCanvas st) = oscillators st
  /\ audioInitialized (growCanvas st) = audioInitialized st
  /\ console (growCanvas st) = console st.
Proof. unfold growCanvas. by destruct (negb _). Qed.

(** What a tick does to the list of oscillators. *)
Lemma sample_oscillators d st :
  oscillators (sample d st) = oscillators st
  \/ exists name base,
       name ∈ EMOTIONS
       /\ EMOTION_FREQS !! name = Some base
       /\ 0.2 < get_or_zero (takeSnapshot d) name
       /\ audioInitialized st = true
       /\ oscillators (sample d st)
          = oscillators st
            ++ [beep base (get_or_zero (takeSnapshot d) name)].
Proof.
  unfold sample.
  destruct (growCanvas_oscillators
              (beepForDominant (takeSnapshot d) (push (takeSnapshot d) st)))
    as (-> & _ & _).
  destruct (beepForDominant_detail (takeSnapshot d)
              (push (takeSnapshot d) st))
    as [-> | (name & Hin & Hgt & ->)]; [by left|].
  destruct (audioInitialized st) eqn:Haudio.
  - right. destruct (EMOTION_FREQS_known name Hin) as (base & Hbase & Hb).
    exists name, base. repeat split; try assumption.
    rewrite (triggerBeepForEmotion_known name base _ _ Hbase);
      [reflexivity | lra | exact Haudio].
  - left. unfold triggerBeepForEmotion. cbn [push audioInitialized].
    by rewrite Haudio.
Qed.

Lemma step_oscillators st ev :
  exists started,
    oscillators (step st ev) = oscillators st ++ started
    /\ (length started <= if is_tick ev then 1 else 0)%nat.
Proof.
  destruct ev as [b | d | | w h |]; cbn [step is_tick].
  2: { destruct (sample_oscillators d st)
         as [-> | (name & base & _ & _ & _ & _ & ->)].
       - exists []. rewrite app_nil_r. split; [reflexivity | cbn; lia].
       - eexists. split; [reflexivity | cbn; lia]. }
  all: exists []; rewrite app_nil_r; split; [|cbn; lia].
  all: callback_cases.
Qed.

Lemma step_audioInitialized st ev :
  audioInitialized (step st ev) = audioInitialized st || is_click ev.
Proof.
  destruct ev as [b | d | | w h |]; cbn [step is_click];
    rewrite ?orb_false_r, ?orb_true_r.
  - unfold mousePressed. destruct (audioInitialized st) eqn:E; [done|].
    by destruct b.
  - unfold sample.
    destruct (growCanvas_oscillators
                (beepForDominant (takeSnapshot d)
                   (push (takeSnapshot d) st))) as (_ & -> & _).
    destruct (beepForDominant_detail (takeSnapshot d)
                (push (takeSnapshot d) st)) as [-> | (n & _ & _ & ->)];
      [reflexivity|].
    unfold triggerBeepForEmotion. by destruct (negb _).
  - callback_cases.
  - reflexivity.
  - reflexivity.
Qed.

(** X5: with audio unlocked, a cue for one of the seven labels and an
    intensity in [0, 1] starts one sine oscillator with the fixed
    envelope, at a finite frequency.  Nominally the frequency is within
    20% of the label's base frequency and the amplitude between 0.05 and
    0.3; stated with room for rounding: the frequency is within 21% of
    the base frequency, so between 175 and 1057 Hz, and the amplitude is
    between 0.04 and 0.31. *)
Theorem cue_in_range (name : string) (v : Q) (st : State) :
  audioInitialized st = true ->
  name ∈ EMOTIONS ->
  0 <= v <= 1 ->
  exists base freq amp,
    EMOTION_FREQS !! name = Some base
    /\ oscillators (triggerBeepForEmotion name v st)
       = oscillators st
         ++ [mkOscillator "sine" (Fin freq) amp 0.01 0.15 0.05 0.25]
    /\ 0.79 * base < freq /\ freq < 1.21 * base
    /\ 175 < freq /\ freq < 1057
    /\ 0.04 < amp /\ amp < 0.31.
Proof.
  intros Haudio Hin Hv.
  destruct (EMOTION_FREQS_known name Hin) as (base & Hbase & Hb).
  exists base, (base * (0.8 + v * 0.4)), (0.05 + v * 0.25).
  split; [exact Hbase|].
  split.
  { rewrite (triggerBeepForEmotion_known name base v st Hbase);
      [reflexivity | lra | exact Haudio]. }
  repeat split; nra.
Qed.

Lemma cue_in_range_witness :
  exists base freq amp,
    EMOTION_FREQS !! "sad"%string = Some base
    /\ oscillators (triggerBeepForEmotion "sad" 0.5 unlocked_page)
       = oscillators unlocked_page
         ++ [mkOscillator "sine" (Fin freq) amp 0.01 0.15 0.05 0.25]
    /\ 0.79 * base < freq /\ freq < 1.21 * base
    /\ 175 < freq /\ freq < 1057
    /\ 0.04 < amp /\ amp < 0.31.
Proof.
  apply (cue_in_range "sad" 0.5 unlocked_page).
  - reflexivity.
  - apply (bool_decide_unpack _). vm_compute. exact I.
  - split; discriminate.
Defined.

(** X6: for one of the seven labels and intensities in [0, 1], a stronger
    intensity never gives a lower frequency or a smaller amplitude. *)
Theorem cue_rises_with_intensity (name : string) (v1 v2 : Q) (st : State)
    (osc1 osc2 : Oscillator) :
  audioInitialized st = true ->
  name ∈ EMOTIONS ->
  0 <= v1 -> v1 <= v2 -> v2 <= 1 ->
  oscillators (triggerBeepForEmotion name v1 st) = oscillators st ++ [osc1] ->
  oscillators (triggerBeepForEmotion name v2 st) = oscillators st ++ [osc2] ->
  exists f1 f2,
    osc_freq osc1 = Fin f1 /\ osc_freq osc2 = Fin f2
    /\ f1 <= f2 /\ osc_amp osc1 <= osc_amp osc2.
Proof.
  intros Haudio Hin Hv0 Hv Hv1 H1 H2.
  destruct (EMOTION_FREQS_known name Hin) as (base & Hbase & Hb).
  rewrite (triggerBeepForEmotion_known name base v1 st Hbase) in H1
    by (lra || exact Haudio).
  rewrite (triggerBeepForEmotion_known name base v2 st Hbase) in H2
    by (lra || exact Haudio).
  cbn [start_oscillator oscillators] in H1, H2.
  apply app_inv_head in H1, H2.
  injection H1 as <-. injection H2 as <-.
  eexists _, _. split; [reflexivity|]. split; [reflexivity|].
  cbn [beep osc_amp]. split; nra.
Qed.

Lemma cue_rises_with_intensity_witness :
  exists f1 f2,
    osc_freq (beep 600 0.3) = Fin f1 /\ osc_freq (beep 600 0.8) = Fin f2
    /\ f1 <= f2 /\ osc_amp (beep 600 0.3) <= osc_amp (beep 600 0.8).
Proof.
  apply (cue_rises_with_intensity "fearful" 0.3 0.8 unlocked_page).
  - reflexivity.
  - apply (bool_decide_unpack _). vm_compute. exact I.
  - discriminate.
  - discriminate.
  - discriminate.
  - reflexivity.
  - reflexivity.
Defined.

(** ** Sound over a whole session *)

Lemma run_cons ev evs st : run (ev :: evs) st = run evs (step st ev).
Proof. reflexivity. Qed.

Lemma run_audioInitialized evs st :
  audioInitialized (run evs st)
  = audioInitialized st || existsb is_click evs.
Proof.
  revert st. induction evs as [|ev evs IH]; intros st.
  - cbn. by rewrite orb_false_r.
  - rewrite run_cons, IH, step_audioInitialized. cbn [existsb].
    by rewrite orb_assoc.
Qed.

Lemma run_oscillators evs st :
  exists started,
    oscillators (run evs st) = oscillators st ++ started
    /\ (length started <= ticks evs)%nat.
Proof.
  revert st. induction evs as [|ev evs IH]; intros st.
  - exists []. rewrite app_nil_r. split; [reflexivity | cbn; lia].
  - rewrite run_cons. destruct (IH (step st ev)) as (l2 & -> & Hl2).
    destruct (step_oscillators st ev) as (l1 & -> & Hl1).
    exists (l1 ++ l2). rewrite app_assoc. split; [reflexivity|].
    rewrite length_app. unfold ticks in *. cbn [List.filter].
    destruct (is_tick ev); cbn [length]; lia.
Qed.

Lemma run_locked evs st :
  audioInitialized st = false -> existsb is_click evs = false ->
  oscillators (run evs st) = oscillators st
  /\ console (run evs st) = console st.
Proof.
  revert st. induction evs as [|ev evs IH]; intros st Haudio Hclick.
  - by split.
  - cbn [existsb] in Hclick. apply orb_false_iff in Hclick as [Hev Hevs].
    rewrite run_cons.
    assert (Hstep : oscillators (step st ev) = oscillators st
                    /\ console (step st ev) = console st).
    { destruct ev as [b | d | | w h |]; cbn [step]; try discriminate.
      - unfold sample.
        destruct (growCanvas_oscillators
                    (beepForDominant (takeSnapshot d)
                       (push (takeSnapshot d) st))) as (-> & _ & ->).
        destruct (beepForDominant_detail (takeSnapshot d)
                    (push (takeSnapshot d) st))
          as [-> | (n & _ & _ & ->)]; [by split|].
        unfold triggerBeepForEmotion. cbn [push audioInitialized].
        by rewrite Haudio.
      - split; callback_cases.
      - by split.
      - by split. }
    destruct Hstep as [<- <-]. apply IH; [|exact Hevs].
    by rewrite step_audioInitialized, Haudio, Hev.
Qed.

Lemma step_console_unlocked st ev :
  audioInitialized st = true -> console (step st ev) = console st.
Proof.
  intros Haudio. destruct ev as [b | d | | w h |]; cbn [step].
  - unfold mousePressed. by rewrite Haudio.
  - unfold sample.
    destruct (growCanvas_oscillators
                (beepForDominant (takeSnapshot d)
                   (push (takeSnapshot d) st))) as (_ & _ & ->).
    destruct (beepForDominant_detail (takeSnapshot d)
                (push (takeSnapshot d) st)) as [-> | (n & _ & _ & ->)];
      [reflexivity|].
    unfold triggerBeepForEmotion. by destruct (negb _).
  - callback_cases.
  - reflexivity.
  - reflexivity.
Qed.

Lemma run_console_unlocked evs st :
  audioInitialized st = true -> console (run evs st) = console st.
Proof.
  revert st. induction evs as [|ev evs IH]; intros st Haudio; [done|].
  rewrite run_cons, IH, step_console_unlocked; [done..|].
  by rewrite step_audioInitialized, Haudio.
Qed.

(** X7: oscillators are only ever added.  Over any run the oscillators
    that were there stay, unchanged and in place, at the front of the
    list, and at most one oscillator is started per sampling tick. *)
Theorem oscillators_append_only (evs more : list Event) (st : State) :
  oscillators (run evs st) `prefix_of` oscillators (run (evs ++ more) st)
  /\ (length (oscillators (run evs st))
      <= length (oscillators st) + ticks evs)%nat.
Proof.
  split.
  - rewrite run_app.
    destruct (run_oscillators more (run evs st)) as (l & -> & _).
    by eexists.
  - destruct (run_oscillators evs st) as (l & -> & Hl).
    rewrite length_app. lia.
Qed.

(** X8: from [setup] on, audio is unlocked exactly when the user has
    clicked at least once; and once unlocked it stays unlocked, whatever
    happens next. *)
Theorem audio_unlocked_iff_clicked (iw ih : Z) (evs : list Event)
    (st : State) :
  audioInitialized (run evs (setup iw ih)) = existsb is_click evs
  /\ (audioInitialized st = true -> audioInitialized (run evs st) = true).
Proof.
  split.
  - by rewrite run_audioInitialized.
  - intros H. by rewrite run_audioInitialized, H.
Qed.

Lemma audio_unlocked_iff_clicked_witness :
  audioInitialized (run click_session (setup 1000 700))
  = existsb is_click click_session
  /\ audioInitialized (run silent_session unlocked_page) = true.
Proof.
  split.
  - exact (proj1 (audio_unlocked_iff_clicked 1000 700 click_session
                    unlocked_page)).
  - apply (proj2 (audio_unlocked_iff_clicked 1000 700 silent_session
                    unlocked_page)).
    reflexivity.
Defined.

(** X9: until the first click the page is silent: a run from [setup]
    without a click starts no oscillator, however many faces are
    detected. *)
Theorem silent_until_first_click (iw ih : Z) (evs : list Event) :
  existsb is_click evs = false ->
  oscillators (run evs (setup iw ih)) = [].
Proof. intros H. by apply (run_locked evs (setup iw ih)). Qed.

Lemma silent_until_first_click_witness :
  oscillators (run silent_session (setup 1000 700)) = [].
Proof.
  apply (silent_until_first_click 1000 700 silent_session). reflexivity.
Defined.

(** X10: only the first click counts.  A second click changes nothing,
    and after any run from [setup] the lines written with [console.log]
    (the field [console]; [startVideo] reports a camera failure with
    [console.error], which is not part of it) are exactly those of the
    first click: none if there was no click, else the unlock error (if
    the unlock threw) followed by "Audio initialized". *)
Theorem first_click_only (iw ih : Z) (evs : list Event) (b1 b2 : bool)
    (st : State) :
  mousePressed b2 (mousePressed b1 st) = mousePressed b1 st
  /\ console (run evs (setup iw ih))
     = match first_click evs with
       | None => []
       | Some unlockThrows =>
           (if unlockThrows then ["Audio init error:"%string] else [])
           ++ ["Audio initialized"%string]
       end.
Proof.
  split.
  { unfold mousePressed. destruct (audioInitialized st) eqn:E.
    - by rewrite E.
    - by destruct b1. }
  assert (Hgen : forall st0, audioInitialized st0 = false ->
             console (run evs st0)
             = console st0
               ++ match first_click evs with
                  | None => []
                  | Some unlockThrows =>
                      (if unlockThrows then ["Audio init error:"%string]
                       else [])
                      ++ ["Audio initialized"%string]
                  end).
  { induction evs as [|ev evs IH]; intros st0 Haudio.
    - cbn. by rewrite app_nil_r.
    - rewrite run_cons. destruct ev as [b | d | | w h |].
      + cbn [first_click step]. rewrite run_console_unlocked.
        * unfold mousePressed. rewrite Haudio.
          destruct b; cbn; by rewrite <- ?app_assoc.
        * unfold mousePressed. rewrite Haudio. by destruct b.
      + cbn [first_click].
        destruct (run_locked [Sample d] st0 Haudio eq_refl) as [_ Hc].
        rewrite run_cons in Hc. cbn [run foldl] in Hc. rewrite <- Hc.
        apply IH. by rewrite step_audioInitialized, Haudio.
      + cbn [first_click].
        destruct (run_locked [Draw] st0 Haudio eq_refl) as [_ Hc].
        rewrite run_cons in Hc. cbn [run foldl] in Hc. rewrite <- Hc.
        apply IH. by rewrite step_audioInitialized, Haudio.
      + cbn [first_click]. apply (IH (step st0 (Viewport w h))).
        exact Haudio.
      + cbn [first_click]. apply (IH (step st0 WindowResized)).
        exact Haudio. }
  apply (Hgen (setup iw ih)). reflexivity.
Qed.

Lemma step_oscillators_other st ev :
  is_tick ev = false -> oscillators (step st ev) = oscillators st.
Proof.
  intros Hev. destruct (step_oscillators st ev) as (l & -> & Hl).
  rewrite Hev in Hl. destruct l; [by rewrite app_nil_r | cbn in Hl; lia].
Qed.

Lemma sampler_beep_weaken (P R : Q -> Prop) (osc : Oscillator) :
  (forall v, P v -> R v) -> sampler_beep P osc -> sampler_beep R osc.
Proof.
  intros HPR (name & base & v & Hin & Hb & Hv & HP & ->).
  exists name, base, v. repeat split; try assumption. by apply HPR.
Qed.

(** Every oscillator of a run is one the sampler started, for an
    intensity that some tick's snapshot held. *)
Lemma run_sampler_beeps (P : Q -> Prop) evs st :
  Forall (sampler_beep P) (oscillators st) ->
  Forall (fun d => forall name, name ∈ EMOTIONS ->
                     P (get_or_zero (takeSnapshot d) name))
    (detections evs) ->
  Forall (sampler_beep P) (oscillators (run evs st)).
Proof.
  revert st. induction evs as [|ev evs IH]; intros st Hst Hevs; [done|].
  rewrite run_cons.
  destruct ev as [b | d | | w h |]; cbn [detections] in Hevs.
  2: { apply Forall_cons in Hevs as [Hd Hevs]. apply IH; [|exact Hevs].
       cbn [step].
       destruct (sample_oscillators d st)
         as [-> | (name & base & Hin & Hb & Hv & _ & ->)]; [exact Hst|].
       apply Forall_app. split; [exact Hst|]. constructor; [|constructor].
       exists name, base, (get_or_zero (takeSnapshot d) name).
       repeat split; try assumption. by apply Hd. }
  all: apply IH; [|exact Hevs].
  all: by rewrite step_oscillators_other.
Qed.

Lemma snapshot_value_unit d name :
  reports_unit d -> name ∈ EMOTIONS ->
  0 <= get_or_zero (takeSnapshot d) name <= 1.
Proof.
  intros Hd Hname. unfold get_or_zero. rewrite takeSnapshot_lookup.
  rewrite bool_decide_eq_true_2 by exact Hname.
  destruct (reported d name) as [q|] eqn:Hq.
  - pose proof (or_zero_twice q) as Htwice. cbn zeta in Htwice.
    rewrite Htwice.
    destruct d as [| |[e|]]; try discriminate. cbn in Hq, Hd.
    apply (Hd name q) in Hq. apply unit_intervalb_true in Hq.
    destruct (Qeq_bool q 0); cbv beta iota; lra.
  - split; vm_compute; discriminate.
Qed.

(** X11: every oscillator the page ever starts is one of the sampler's
    cues: a sine with the fixed envelope, for one of the seven labels at
    that label's base frequency and for an intensity above 0.2.  In
    particular no oscillator of a run from [setup] is ever given the
    frequency NaN. *)
Theorem oscillators_are_sampler_cues (iw ih : Z) (evs : list Event) :
  Forall (sampler_beep (fun _ => True%type))
    (oscillators (run evs (setup iw ih)))
  /\ Forall (fun osc => osc_freq osc <> NaN)
       (oscillators (run evs (setup iw ih))).
Proof.
  assert (H : Forall (sampler_beep (fun _ => True%type))
                (oscillators (run evs (setup iw ih)))).
  { apply run_sampler_beeps; [constructor|].
    apply Forall_forall. intros d _ name _. exact I. }
  split; [exact H|].
  eapply Forall_impl; [exact H|].
  intros osc (name & base & v & _ & _ & _ & _ & ->). discriminate.
Qed.

(** X12: if face-api only reports values in [0, 1], every oscillator the
    page starts has a frequency between 193 and 1057 Hz and an amplitude
    between 0.09 and 0.31 (nominally 193.6 to 1056 Hz and 0.1 to 0.3;
    the bounds leave room for rounding). *)
Theorem oscillators_in_range (iw ih : Z) (evs : list Event) :
  Forall event_reports_unit evs ->
  Forall (fun osc =>
            exists f, osc_freq osc = Fin f
                      /\ 193 < f /\ f < 1057
                      /\ 0.09 < osc_amp osc /\ osc_amp osc < 0.31)
    (oscillators (run evs (setup iw ih))).
Proof.
  intros Hevs.
  assert (H : Forall (sampler_beep (fun v => v <= 1))
                (oscillators (run evs (setup iw ih)))).
  { apply run_sampler_beeps; [constructor|].
    induction Hevs as [|ev evs Hev _ IH]; [constructor|].
    destruct ev as [b | d | | w h |]; cbn [detections]; try exact IH.
    constructor; [|exact IH]. intros name Hname.
    by apply snapshot_value_unit. }
  eapply Forall_impl; [exact H|].
  intros osc (name & base & v & Hin & Hb & Hv & Hv1 & ->).
  destruct (EMOTION_FREQS_known name Hin) as (base' & Hb' & Hrange).
  rewrite Hb in Hb'. injection Hb' as <-.
  eexists. split; [reflexivity|]. cbn [beep osc_amp]. repeat split; nra.
Qed.

Lemma oscillators_in_range_witness :
  Forall (fun osc =>
            exists f, osc_freq osc = Fin f
                      /\ 193 < f /\ f < 1057
                      /\ 0.09 < osc_amp osc /\ osc_amp osc < 0.31)
    (oscillators (run click_session (setup 1000 700))).
Proof.
  apply (oscillators_in_range 1000 700 click_session).
  repeat constructor; apply (bool_decide_unpack _); vm_compute; exact I.
Defined.

(** ** The canvas over a whole session *)

Lemma beepForDominant_canvas snapshot st :
  height (beepForDominant snapshot st) = height st
  /\ canvasHeight (beepForDominant snapshot st) = canvasHeight st
  /\ innerHeight (beepForDominant snapshot st) = innerHeight st.
Proof. callback_cases; by repeat split. Qed.

Lemma sample_height d st :
  canvasHeight (sample d st) = canvasHeight st
  /\ (height (sample d st) = height st
      \/ height (sample d st) = canvasHeight st).
Proof.
  unfold sample.
  destruct (beepForDominant_canvas (takeSnapshot d)
              (push (takeSnapshot d) st)) as (Hh & Hc & _).
  cbn [push height canvasHeight] in Hh, Hc.
  unfold growCanvas. destruct (negb _); cbn [resizeCanvas canvasHeight height];
    rewrite ?Hh, ?Hc; split; auto.
Qed.

(** One step keeps the canvas as wide as the history needs and as high as
    [canvasHeight] says. *)
Lemma step_canvas st ev :
  (Z.of_nat (length (emotionHistory st)) * COL_WIDTH <= width st)%Z ->
  height st = canvasHeight st ->
  (Z.of_nat (length (emotionHistory (step st ev))) * COL_WIDTH
   <= width (step st ev))%Z
  /\ height (step st ev) = canvasHeight (step st ev).
Proof.
  intros Hw Hh. destruct ev as [b | d | | w h |]; cbn [step].
  - unfold mousePressed.
    destruct (audioInitialized st); [by split|]. by destruct b.
  - destruct (sample_width d st) as [-> _].
    destruct (sample_height d st) as [-> [-> | ->]].
    all: rewrite sample_history, length_app; cbn [length].
    all: unfold requiredWidth, COL_WIDTH in *; split; [lia | done].
  - unfold draw. destruct (_ =? _)%nat; by split.
  - by split.
  - rewrite windowResized_width. cbn.
    unfold requiredWidth, COL_WIDTH in *. split; [lia | done].
Qed.

(** X13: in every state reached from [setup] on a viewport of width at
    least 0 the canvas is wide enough for all the columns of the history
    (6 pixels each), and its height is the recorded [canvasHeight]. *)
Theorem canvas_covers_history (iw ih : Z) (evs : list Event) :
  (0 <= iw)%Z ->
  (Z.of_nat (length (emotionHistory (run evs (setup iw ih)))) * 6
   <= width (run evs (setup iw ih)))%Z
  /\ height (run evs (setup iw ih)) = canvasHeight (run evs (setup iw ih)).
Proof.
  intros Hiw.
  assert (Hgen : forall st,
             (Z.of_nat (length (emotionHistory st)) * COL_WIDTH
              <= width st)%Z ->
             height st = canvasHeight st ->
             (Z.of_nat (length (emotionHistory (run evs st))) * COL_WIDTH
              <= width (run evs st))%Z
             /\ height (run evs st) = canvasHeight (run evs st)).
  { induction evs as [|ev evs IH]; intros st Hw Hh; [by split|].
    rewrite run_cons. destruct (step_canvas st ev Hw Hh) as [Hw' Hh'].
    by apply IH. }
  apply Hgen; [cbn; lia | reflexivity].
Qed.

Lemma canvas_covers_history_witness :
  (Z.of_nat (length (emotionHistory (run click_session (setup 10 70)))) * 6
   <= width (run click_session (setup 10 70)))%Z
  /\ height (run click_session (setup 10 70))
     = canvasHeight (run click_session (setup 10 70)).
Proof. apply (canvas_covers_history 10 70 click_session). lia. Defined.

(** X14: right after a sampling tick, and right after the resize handler,
    the canvas is at least as wide as the viewport and as all the columns
    of the history; a second resize check, or a second run of the handler,
    then changes nothing; and the handler makes the canvas as high as the
    viewport. *)
Theorem resize_settles (d : Detection) (st : State) :
  (innerWidth (sample d st) <= width (sample d st))%Z
  /\ (Z.of_nat (length (emotionHistory (sample d st))) * 6
      <= width (sample d st))%Z
  /\ growCanvas (sample d st) = sample d st
  /\ (innerWidth (windowResized st) <= width (windowResized st))%Z
  /\ (Z.of_nat (length (emotionHistory (windowResized st))) * 6
      <= width (windowResized st))%Z
  /\ windowResized (windowResized st) = windowResized st
  /\ height (windowResized st) = innerHeight st.
Proof.
  destruct (sample_width d st) as [Hw Hi].
  assert (Hneeded : width (sample d st) = neededWidth (sample d st)).
  { unfold neededWidth. rewrite Hw, Hi, sample_history, length_app.
    cbn [length]. by rewrite Nat.add_1_r. }
  split; [rewrite Hneeded; unfold neededWidth, requiredWidth; lia|].
  split.
  { rewrite Hneeded. unfold neededWidth, requiredWidth, COL_WIDTH. lia. }
  split.
  { unfold growCanvas at 1. rewrite Hneeded at 1.
    by rewrite Z.eqb_refl. }
  rewrite windowResized_width.
  change (innerWidth (windowResized st)) with (innerWidth st).
  change (emotionHistory (windowResized st)) with (emotionHistory st).
  unfold requiredWidth, COL_WIDTH.
  split; [lia|]. split; [lia|]. split; reflexivity.
Qed.

(** ** The frame *)

Lemma concat_imap_length {A B : Type} (f : nat -> A -> list B) (k : nat)
    (l : list A) :
  (forall i x, length (f i x) = k) ->
  length (concat (imap f l)) = (k * length l)%nat.
Proof.
  revert f. induction l as [|x l IH]; intros f Hf; cbn.
  - lia.
  - rewrite length_app, Hf, (IH (f ∘ S)); [lia|].
    intros i y. apply Hf.
Qed.

Lemma concat_imap_lookup {A B : Type} (f : nat -> A -> list B) (k : nat)
    (l : list A) (t e : nat) (x : A) :
  (forall i y, length (f i y) = k) ->
  l !! t = Some x -> (e < k)%nat ->
  concat (imap f l) !! (k * t + e)%nat = f t x !! e.
Proof.
  revert f t. induction l as [|y l IH]; intros f t Hf Ht He; [done|].
  cbn [imap concat]. destruct t as [|t].
  - cbn in Ht. injection Ht as ->. rewrite Nat.mul_0_r, Nat.add_0_l.
    apply lookup_app_l. by rewrite Hf.
  - cbn in Ht. rewrite lookup_app_r by (rewrite Hf; lia).
    rewrite Hf. replace (k * S t + e - k)%nat with (k * t + e)%nat by lia.
    apply (IH (f ∘ S) t); [|exact Ht|exact He].
    intros i z. apply Hf.
Qed.

Lemma column_length rh t snapshot : length (column rh t snapshot) = 7%nat.
Proof. unfold column. by rewrite length_imap. Qed.

Lemma separators_length rh w : length (separators rh w) = 6%nat.
Proof. reflexivity. Qed.

Lemma frame_nonempty st :
  emotionHistory st <> [] ->
  frame st
  = Background 0
      :: concat (imap (column (rowHeight st)) (emotionHistory st))
      ++ separators (rowHeight st) (width st).
Proof.
  intros Hne. unfold frame, draw.
  destruct (emotionHistory st) as [|s l]; [done|]. reflexivity.
Qed.

(** Every cell of the frame is the cell of some time step and label. *)
Lemma frame_cells st cmd :
  cmd ∈ concat (imap (column (rowHeight st)) (emotionHistory st)) ->
  exists t e snapshot name,
    emotionHistory st !! t = Some snapshot
    /\ EMOTIONS !! e = Some name
    /\ cmd = Rect (getEmotionColor name (get_or_zero snapshot name))
               (inject_Z (Z.of_nat t * COL_WIDTH))
               (inject_Z (Z.of_nat e) * rowHeight st)
               (inject_Z COL_WIDTH) (rowHeight st).
Proof.
  intros Hin. apply list_elem_of_In, in_concat in Hin as (col & Hcol & Hin).
  apply list_elem_of_In, elem_of_lookup_imap_1 in Hcol
    as (t & snapshot & -> & Ht).
  apply list_elem_of_In, elem_of_lookup_imap_1 in Hin
    as (e & name & -> & He).
  by exists t, e, snapshot, name.
Qed.

(** X15: an empty history is painted as the background alone; a history
    of [n] snapshots as the background, then [7 n] cells (rectangles),
    then six separator lines, and nothing else. *)
Theorem frame_shape (st : State) :
  match emotionHistory st with
  | [] => frame st = [Background 0]
  | _ =>
      exists cells lines,
        frame st = Background 0 :: cells ++ lines
        /\ length cells = (7 * length (emotionHistory st))%nat
        /\ forallb is_cell cells = true
        /\ length lines = 6%nat
        /\ forallb is_line lines = true
  end.
Proof.
  destruct (emotionHistory st) as [|s l] eqn:Hh.
  - unfold frame, draw. by rewrite Hh.
  - rewrite <- Hh.
    exists (concat (imap (column (rowHeight st)) (emotionHistory st))),
      (separators (rowHeight st) (width st)).
    split; [apply frame_nonempty; rewrite Hh; discriminate|].
    split; [apply (concat_imap_length _ 7); intros; apply column_length|].
    split; [|split; reflexivity].
    apply forallb_forall. intros cmd Hcmd.
    apply list_elem_of_In, frame_cells in Hcmd
      as (t & e & snapshot & name & _ & _ & ->).
    reflexivity.
Qed.

(** X16: [draw] changes nothing but the scroll position, and drawing
    again right away paints the same frame and leaves the same state. *)
Theorem draw_only_scrolls (st : State) :
  scrollTo (scrollX st) (snd (draw st)) = st
  /\ draw (snd (draw st)) = draw st.
Proof.
  unfold draw. destruct st as [h a ch w hh iw ih sx os c]. cbn.
  destruct h as [|s l]; cbn; by split.
Qed.

(** X17: the cell of time step [t] and of the [e]-th label is the entry
    [1 + 7 t + e] of the frame: a rectangle 6 wide and one row high whose
    left edge is at [6 t] and whose top edge is at [e] rows, filled with
    the colour of that label at the intensity the snapshot of step [t]
    holds for it. *)
Theorem cell_position (st : State) (t e : nat) (snapshot : gmap string Q)
    (name : string) :
  emotionHistory st !! t = Some snapshot ->
  EMOTIONS !! e = Some name ->
  frame st !! (1 + 7 * t + e)%nat
  = Some (Rect (getEmotionColor name (get_or_zero snapshot name))
               (inject_Z (Z.of_nat t * 6))
               (inject_Z (Z.of_nat e) * rowHeight st)
               6 (rowHeight st)).
Proof.
  intros Ht He.
  assert (He7 : (e < 7)%nat) by (apply lookup_lt_Some in He; exact He).
  rewrite frame_nonempty by (intros Hnil; by rewrite Hnil in Ht).
  rewrite lookup_cons_ne_0 by lia.
  replace (Nat.pred (1 + 7 * t + e)) with (7 * t + e)%nat by lia.
  rewrite lookup_app_l.
  2: { rewrite (concat_imap_length _ 7) by (intros; apply column_length).
       apply lookup_lt_Some in Ht. lia. }
  rewrite (concat_imap_lookup _ 7 _ t e snapshot);
    [|intros; apply column_length|exact Ht|exact He7].
  unfold column. rewrite list_lookup_imap, He. reflexivity.
Qed.

Lemma cell_position_witness :
  frame small_page !! (1 + 7 * 2 + 1)%nat
  = Some (Rect (getEmotionColor "happy"
                  (get_or_zero (takeSnapshot (Face (Some tied_sample)))
                     "happy"))
               (inject_Z (Z.of_nat 2 * 6))
               (inject_Z (Z.of_nat 1) * rowHeight small_page)
               6 (rowHeight small_page)).
Proof.
  apply (cell_position small_page 2 1
           (takeSnapshot (Face (Some tied_sample))) "happy").
  - vm_compute. reflexivity.
  - reflexivity.
Defined.

Lemma rowHeight_rows st : 7 * rowHeight st == inject_Z (height st).
Proof.
  unfold rowHeight. change (inject_Z (Z.of_nat (length EMOTIONS))) with 7.
  field.
Qed.

(** X18: when the canvas is at least as wide as the history needs (as it
    is in every state reached from [setup], see X13) and its height is
    not negative, every cell [draw] paints lies between the left and the
    right edge of the canvas, and its top edge lies between the top and
    the bottom of the canvas. *)
Theorem cells_on_canvas (st : State) :
  (Z.of_nat (length (emotionHistory st)) * 6 <= width st)%Z ->
  (0 <= height st)%Z ->
  Forall (on_canvas (width st) (height st)) (frame st).
Proof.
  intros Hw Hh. apply Forall_forall. intros cmd Hcmd.
  destruct (emotionHistory st) as [|s0 l0] eqn:Hhist.
  { unfold frame, draw in Hcmd. rewrite Hhist in Hcmd. cbn in Hcmd.
    apply list_elem_of_singleton in Hcmd as ->. exact I. }
  rewrite frame_nonempty in Hcmd by (rewrite Hhist; discriminate).
  apply elem_of_cons in Hcmd as [-> | Hcmd]; [exact I|].
  apply elem_of_app in Hcmd as [Hcmd | Hcmd].
  2: { unfold separators in Hcmd.
       apply list_elem_of_fmap in Hcmd as (e & -> & _). exact I. }
  rewrite <- Hhist in Hw.
  apply frame_cells in Hcmd as (t & e & snapshot & name & Ht & He & ->).
  apply lookup_lt_Some in Ht, He. change (length EMOTIONS) with 7%nat in He.
  pose proof (rowHeight_rows st) as Hrows.
  rewrite Zle_Qle in Hh. change (inject_Z 0) with 0 in Hh.
  assert (He0 : 0 <= inject_Z (Z.of_nat e)).
  { change 0 with (inject_Z 0). rewrite <- Zle_Qle. lia. }
  assert (He6 : inject_Z (Z.of_nat e) <= 6).
  { change 6 with (inject_Z 6). rewrite <- Zle_Qle. lia. }
  cbn [on_canvas]. unfold COL_WIDTH.
  split; [|split; [|split]].
  - change 0 with (inject_Z 0). rewrite <- Zle_Qle. lia.
  - rewrite <- inject_Z_plus, <- Zle_Qle. lia.
  - nra.
  - nra.
Qed.

Lemma cells_on_canvas_witness :
  Forall (on_canvas (width small_page) (height small_page))
    (frame small_page).
Proof.
  apply (cells_on_canvas small_page); vm_compute; discriminate.
Defined.

(** X19: on an empty history [draw] paints the background and returns
    before it scrolls.  Otherwise it scrolls the window to a position
    that is not negative and from which the viewport reaches the right
    edge of the canvas: exactly to that edge, or not at all when the
    canvas is no wider than the viewport. *)
Theorem draw_scrolls_to_newest (st : State) :
  match emotionHistory st with
  | [] => draw st = ([Background 0], st)
  | _ =>
      (0 <= scrollX (snd (draw st)))%Z
      /\ (width st <= scrollX (snd (draw st)) + innerWidth st)%Z
      /\ (scrollX (snd (draw st)) = 0%Z
          \/ (scrollX (snd (draw st)) + innerWidth st)%Z = width st)
  end.
Proof.
  unfold draw. destruct (emotionHistory st) as [|s l]; [reflexivity|].
  cbn [length Nat.eqb snd scrollTo scrollX]. lia.
Qed.

(** X20: after the cells the frame holds the six separator lines, the
    [i]-th of them (counting from 0) across the whole width of the canvas
    at the height of [i + 1] rows. *)
Theorem row_separators (st : State) (i : nat) :
  emotionHistory st <> [] ->
  (i < 6)%nat ->
  frame st !! (1 + 7 * length (emotionHistory st) + i)%nat
  = Some (Line 0 (inject_Z (Z.of_nat (S i)) * rowHeight st)
               (inject_Z (width st))
               (inject_Z (Z.of_nat (S i)) * rowHeight st)).
Proof.
  intros Hne Hi.
  rewrite frame_nonempty by exact Hne.
  rewrite lookup_cons_ne_0 by lia.
  rewrite lookup_app_r.
  2: { rewrite (concat_imap_length _ 7) by (intros; apply column_length).
       lia. }
  rewrite (concat_imap_length _ 7) by (intros; apply column_length).
  replace (Nat.pred (1 + 7 * length (emotionHistory st) + i)
           - 7 * length (emotionHistory st))%nat with i by lia.
  unfold separators. rewrite list_lookup_fmap.
  change (length EMOTIONS - 1)%nat with 6%nat.
  rewrite lookup_seq_lt by exact Hi. reflexivity.
Qed.

Lemma row_separators_witness :
  frame small_page !! (1 + 7 * length (emotionHistory small_page) + 2)%nat
  = Some (Line 0 (inject_Z (Z.of_nat 3) * rowHeight small_page)
               (inject_Z (width small_page))
               (inject_Z (Z.of_nat 3) * rowHeight small_page)).
Proof.
  apply (row_separators small_page 2).
  - vm_compute. discriminate.
  - lia.
Defined.

(** ** Colours, further *)

(** X21: for an intensity in [0, 1] and any label, the colour stays
    within the ranges [setup] gives to [colorMode]: hue from 0 to below
    360, saturation from 0 to 100, brightness from 10 to 100. *)
Theorem colour_in_range (name : string) (v : Q) :
  0 <= v <= 1 ->
  0 <= hue (getEmotionColor name v) < 360
  /\ 0 <= saturation (getEmotionColor name v) <= 100
  /\ 10 <= brightness (getEmotionColor name v) <= 100.
Proof.
  intros Hv. unfold getEmotionColor.
  repeat match goal with
         | |- context [String.eqb name ?s] => destruct (String.eqb name s)
         end;
    cbn [hue saturation brightness]; unfold lerp; lra.
Qed.

Lemma colour_in_range_witness :
  0 <= hue (getEmotionColor "fearful" 0.7) < 360
  /\ 0 <= saturation (getEmotionColor "fearful" 0.7) <= 100
  /\ 10 <= brightness (getEmotionColor "fearful" 0.7) <= 100.
Proof. apply (colour_in_range "fearful" 0.7). split; discriminate. Defined.

(** X22: no two of the seven labels share both hue and saturation, so at
    whatever intensities two different rows never show the same colour
    family. *)
Theorem label_colours_distinct (name1 name2 : string) (v1 v2 : Q) :
  name1 ∈ EMOTIONS -> name2 ∈ EMOTIONS -> name1 <> name2 ->
  ~ (hue (getEmotionColor name1 v1) == hue (getEmotionColor name2 v2)
     /\ saturation (getEmotionColor name1 v1)
        == saturation (getEmotionColor name2 v2)).
Proof.
  intros H1 H2 Hne [Hh Hs]. unfold EMOTIONS in H1, H2.
  repeat (apply elem_of_cons in H1 as [-> | H1]);
    try (by apply elem_of_nil in H1);
    repeat (apply elem_of_cons in H2 as [-> | H2]);
    try (by apply elem_of_nil in H2);
    try (by apply Hne);
    vm_compute in Hh, Hs; discriminate.
Qed.

Lemma label_colours_distinct_witness :
  ~ (hue (getEmotionColor "neutral" 0.5) == hue (getEmotionColor "angry" 0.5)
     /\ saturation (getEmotionColor "neutral" 0.5)
        == saturation (getEmotionColor "angry" 0.5)).
Proof.
  apply (label_colours_distinct "neutral" "angry" 0.5 0.5).
  - apply (bool_decide_unpack _). vm_compute. exact I.
  - apply (bool_decide_unpack _). vm_compute. exact I.
  - discriminate.
Defined.

(** X24: a label that is neither one of the seven nor the name of a
    member of [Object.prototype] is treated as unknown by both lookups:
    its cue uses the base frequency 440 and its cell is grey with the
    brightness interpolated from 10 to 100. *)
Theorem unknown_label_fallbacks (name : string) (v : Q) (st : State) :
  name ∉ EMOTIONS -> name ∉ Object_prototype ->
  audioInitialized st = true ->
  oscillators (triggerBeepForEmotion name v st)
  = oscillators st ++ [beep 440 v]
  /\ getEmotionColor name v = color 0 0 (lerp 10 100 v).
Proof.
  intros Hname Hproto Haudio. split; [|by apply getEmotionColor_unknown].
  unfold triggerBeepForEmotion.
  rewrite (unknown_label_base_frequency name Hname Hproto), Haudio.
  reflexivity.
Qed.

Lemma unknown_label_fallbacks_witness :
  oscillators (triggerBeepForEmotion "bored" 0.5 unlocked_page)
  = oscillators unlocked_page ++ [beep 440 0.5]
  /\ getEmotionColor "bored" 0.5 = color 0 0 (lerp 10 100 0.5).
Proof.
  apply (unknown_label_fallbacks "bored" 0.5 unlocked_page).
  - apply (bool_decide_unpack _). vm_compute. exact I.
  - apply (bool_decide_unpack _). vm_compute. exact I.
  - reflexivity.
Defined.
